(** * Mapa de Sistemas Bancarios por Bairro: a model of [app.py]

    [app.py] is a Streamlit script.  Each render cycle runs it from the
    top: two GeoJSON files are fetched, both frames are reprojected, the
    bank points are counted per neighbourhood, a folium map is assembled
    and a CSV download is offered.

    The script is embedded shallowly.  Its own statements become the
    definitions of [Section App]; the library calls it makes (shapely,
    pandas, geopandas, branca, folium, streamlit) are modelled in the
    modules before it, after the documented behaviour of those calls with
    the arguments the script passes.  What a library computes numerically
    (the containment predicate, the reprojection, the HTTP exchange, the
    GeoJSON reader) stays a parameter. *)

From Stdlib Require Import ZArith QArith String Ascii List Lia.
From Stdlib Require Import DecimalString DecimalPos DecimalZ.
From stdpp Require Import gmap strings list fin_maps.

Open Scope string_scope.
Open Scope Z_scope.

(** ** Python values held in a frame cell or in a GeoJSON property *)

Inductive value :=
| VNone
| VBool (b : bool)
| VInt (z : Z)
| VStr (s : string).

#[global] Instance value_eq_dec : EqDecision value.
Proof. solve_decision. Defined.

(** An exception is known to the script through [str(e)] only. *)
Inductive exn_kind :=
| ConnectionError   (* requests.get could not reach the host *)
| HTTPError         (* raise_for_status on a 4xx or 5xx answer *)
| DataSourceError   (* read_file could not parse the payload *)
| ValueError
| KeyError
| TypeError
| IndexError
| ZeroDivisionError
| AssertionError.

Record Exception := { kind : exn_kind; str : string }.

(** [str(z)] of a Python integer: decimal digits, a minus sign first when
    negative. *)
Definition str_int (z : Z) : string := NilZero.string_of_int (Z.to_int z).

(** ** shapely geometries *)

Module Shapely.

(** Geometry types other than [Point]. *)
Inductive shape_kind :=
| LineString | LinearRing | Polygon
| MultiPoint | MultiLineString | MultiPolygon | GeometryCollection.

(** Coordinates are doubles in shapely; the script never computes with
    them, so they are kept as rationals.  [Point None] is [POINT EMPTY];
    another geometry is empty when it has no coordinates. *)
Inductive Geometry :=
| Point (xy : option (Q * Q))
| Shape (k : shape_kind) (coords : list (Q * Q)).

Definition geom_type (g : Geometry) : string :=
  match g with
  | Point _ => "Point"
  | Shape LineString _ => "LineString"
  | Shape LinearRing _ => "LinearRing"
  | Shape Polygon _ => "Polygon"
  | Shape MultiPoint _ => "MultiPoint"
  | Shape MultiLineString _ => "MultiLineString"
  | Shape MultiPolygon _ => "MultiPolygon"
  | Shape GeometryCollection _ => "GeometryCollection"
  end.

Definition is_empty (g : Geometry) : bool :=
  match g with
  | Point None => true
  | Point (Some _) => false
  | Shape _ nil => true
  | Shape _ (_ :: _) => false
  end.

(** [geom.x] and [geom.y] exist on a non-empty point and raise on
    anything else. *)
Definition x (g : Geometry) : option Q :=
  match g with Point (Some (a, _)) => Some a | _ => None end.

Definition y (g : Geometry) : option Q :=
  match g with Point (Some (_, b)) => Some b | _ => None end.

(** All coordinates of a geometry, as (x, y) = (longitude, latitude). *)
Definition coords (g : Geometry) : list (Q * Q) :=
  match g with
  | Point None => nil
  | Point (Some c) => c :: nil
  | Shape _ cs => cs
  end.

Definition map_coords (f : Q * Q -> Q * Q) (g : Geometry) : Geometry :=
  match g with
  | Point c => Point (option_map f c)
  | Shape k cs => Shape k (List.map f cs)
  end.

End Shapely.
Import Shapely.

(** Truth value of a geometry column entry: [None] is falsy, and a
    shapely geometry is truthy exactly when it is not empty. *)
Definition truthy (g : option Geometry) : bool :=
  match g with
  | None => false
  | Some g => negb (is_empty g)
  end.

(** ** geopandas frames *)

Module GeoPandas.

Inductive CRS := EPSG (code : Z).

#[global] Instance CRS_eq_dec : EqDecision CRS.
Proof. solve_decision. Defined.

(** One row of a frame: its attribute columns and its geometry (a null
    geometry is [None]). *)
Record Feature := {
  properties : gmap string value;
  geometry : option Geometry
}.

(** A frame: its reference system, the names of its attribute columns
    and its rows.  A row that lacks a column holds a missing value
    there.  A frame read by [read_file] has the index 0, 1, ..., n-1:
    the label of a row is its position in [features]. *)
Record GeoDataFrame := {
  crs : option CRS;
  columns : list string;
  features : list Feature
}.

Definition index (df : GeoDataFrame) : list nat :=
  seq 0 (length (features df)).

Definition geometries (df : GeoDataFrame) : list (option Geometry) :=
  List.map geometry (features df).

(** A pandas Series of integers: (index label, value) pairs. *)
Definition Series := list (nat * Z).

Definition series_at (s : Series) (label : nat) : option Z :=
  snd <$> List.find (fun kv => Nat.eqb (fst kv) label) s.

Section Join.
(** shapely's binary predicate [contains], first argument the
    container. *)
Variable contains : Geometry -> Geometry -> bool.

(** A pair joins when the spatial index reports it: null and empty
    geometries are not in the index and never join. *)
Definition joins (l r : option Geometry) : bool :=
  match l, r with
  | Some a, Some b =>
      negb (is_empty a) && negb (is_empty b) && contains a b
  | _, _ => false
  end.

(** Labels of the right rows that join the left geometry [l]. *)
Definition hits (l : option Geometry) (right : list (option Geometry))
  : list nat :=
  List.map fst
    (List.filter (fun jr => joins l (snd jr))
       (combine (seq 0 (length right)) right)).

(** [sjoin(left, right, how="left", predicate="contains")], reduced
    to the two index columns of its result: the left label (the index
    of the joined frame) and [index_right].  With [how="left"] the keys
    of the left frame are used and every left row is kept: one row per
    hit, and a single row with a missing [index_right] for a left row
    without hits. *)
Definition left_rows (i : nat) (l : option Geometry)
    (right : list (option Geometry)) : list (nat * option nat) :=
  match hits l right with
  | nil => (i, None) :: nil
  | js => List.map (fun j => (i, Some j)) js
  end.

Definition sjoin_left (left right : GeoDataFrame)
  : list (nat * option nat) :=
  List.concat
    (List.map (fun il => left_rows (fst il) (snd il) (geometries right))
       (combine (index left) (geometries left))).
End Join.

(** [groupby(keys).size()]: the number of rows per key, whatever the
    other columns hold. *)
Definition groupby_size (keys : list nat) : gmap nat Z :=
  List.fold_right
    (fun k m => <[k := default 0 (m !! k) + 1]> m) ∅ keys.

(** [s.reindex(labels, fill_value=v)]. *)
Definition reindex (s : gmap nat Z) (labels : list nat) (fill_value : Z)
  : Series :=
  List.map (fun k => (k, default fill_value (s !! k))) labels.

(** [df[name] = s]: the series is aligned on the index of the frame; a
    label the series lacks gets a missing value. *)
Definition set_column (df : GeoDataFrame) (name : string) (s : Series)
  : GeoDataFrame :=
  {| crs := crs df;
     columns :=
       if decide (name ∈ columns df) then columns df
       else (columns df ++ name :: nil)%list;
     features :=
       List.map
         (fun ir =>
            {| properties :=
                 <[name := from_option VInt VNone (series_at s (fst ir))]>
                   (properties (snd ir));
               geometry := geometry (snd ir) |})
         (combine (index df) (features df)) |}.

(** [df[name]] read back as a list of cells. *)
Definition column (df : GeoDataFrame) (name : string) : list value :=
  List.map (fun f => default VNone (properties f !! name)) (features df).

End GeoPandas.
Import GeoPandas.

(** [to_crs(epsg=...)].  A frame without a reference system cannot be
    transformed; a frame already in the target system is returned as it
    is; otherwise every coordinate goes through the pyproj transformer,
    which is a parameter here. *)
Section Reproject.
Variable transform : CRS -> CRS -> Q * Q -> Q * Q.

Definition to_crs (df : GeoDataFrame) (epsg : Z)
  : Exception + GeoDataFrame :=
  match crs df with
  | None =>
      inl {| kind := ValueError;
             str := "Cannot transform naive geometries.  Please set a crs on the object first." |}
  | Some c =>
      if decide (c = EPSG epsg) then inr df
      else
        inr {| crs := Some (EPSG epsg);
               columns := columns df;
               features :=
                 List.map
                   (fun f =>
                      {| properties := properties f;
                         geometry :=
                           option_map (map_coords (transform c (EPSG epsg)))
                             (geometry f) |})
                   (features df) |}
  end.
End Reproject.

(** ** pandas: numbers with a missing value, and [to_csv] *)

Module Pandas.

(** A float that may be NaN.  Finite values are exact rationals. *)
Inductive num := Fin (q : Q) | NaN.

Definition of_int (z : Z) : num := Fin (inject_Z z).

(** [Series.min()] and [Series.max()] of an integer column: NaN on an
    empty column. *)
Definition series_min (l : list Z) : option Z :=
  match l with
  | nil => None
  | a :: t => Some (List.fold_left Z.min t a)
  end.

Definition series_max (l : list Z) : option Z :=
  match l with
  | nil => None
  | a :: t => Some (List.fold_left Z.max t a)
  end.

Definition num_of_stat (o : option Z) : num :=
  match o with Some z => of_int z | None => NaN end.

(** A plain frame: column names and rows of cells. *)
Record DataFrame := {
  header : list string;
  rows : list (list value)
}.

(** A Python [str] is kept as the bytes of its UTF-8 encoding, so that
    [encode('utf-8')] lists them.  The characters the CSV writer looks
    for are ASCII and never occur inside a multi-byte sequence. *)
Definition encode_utf8 (s : string) : list Byte.byte :=
  list_byte_of_string s.

Definition quotechar : ascii := ascii_of_nat 34.
Definition sep : ascii := ",".
Definition CR : ascii := ascii_of_nat 13.
Definition LF : ascii := ascii_of_nat 10.

Fixpoint mem_ascii (c : ascii) (s : string) : bool :=
  match s with
  | EmptyString => false
  | String d t => Ascii.eqb c d || mem_ascii c t
  end.

Fixpoint any_char (p : ascii -> bool) (s : string) : bool :=
  match s with
  | EmptyString => false
  | String c t => p c || any_char p t
  end.

(** Doubles every quote character of a field. *)
Fixpoint double_quotes (s : string) : string :=
  match s with
  | EmptyString => EmptyString
  | String c t =>
      if Ascii.eqb c quotechar
      then String c (String c (double_quotes t))
      else String c (double_quotes t)
  end.

Fixpoint str_join (d : string) (l : list string) : string :=
  match l with
  | nil => ""
  | a :: nil => a
  | a :: t => a ++ d ++ str_join d t
  end.

(** [os.linesep], the default [lineterminator] of [to_csv]. *)
Inductive platform := Posix | Nt.

Definition linesep (p : platform) : string :=
  match p with
  | Posix => String LF ""
  | Nt => String CR (String LF "")
  end.

Section Writer.
Variable lineterminator : string.

(** [csv.QUOTE_MINIMAL], as the [csv] module of Python 3.11 has it: a
    field is quoted when it holds the delimiter, the quote character or
    a character of the line terminator.  With the line terminator of
    Posix a carriage return alone does not make a field quoted. *)
Definition special (c : ascii) : bool :=
  Ascii.eqb c sep || Ascii.eqb c quotechar
  || mem_ascii c lineterminator.

Definition quoted (s : string) : string :=
  String quotechar (double_quotes s ++ String quotechar "").

Definition write_field (s : string) : string :=
  if any_char special s then quoted s else s.

(** A row of one empty field is written as two quote characters. *)
Definition writerow (fields : list string) : string :=
  match fields with
  | "" :: nil => quoted "" ++ lineterminator
  | _ => str_join (String sep "") (List.map write_field fields)
           ++ lineterminator
  end.

(** How a cell is written: a missing value as the empty [na_rep]. *)
Definition cell_str (v : value) : string :=
  match v with
  | VNone => ""
  | VBool true => "True"
  | VBool false => "False"
  | VInt z => str_int z
  | VStr s => s
  end.

(** [df.to_csv(index=False)]: the header row, then the rows in frame
    order. *)
Definition to_csv (df : DataFrame) : string :=
  writerow (header df)
  ++ String.concat "" (List.map (fun r => writerow (List.map cell_str r))
                         (rows df)).
End Writer.

End Pandas.
Import Pandas.

(** ** branca: [LinearColormap] *)

Module Branca.

Definition num_add (a b : num) : num :=
  match a, b with Fin p, Fin q => Fin (p + q) | _, _ => NaN end.

Definition num_sub (a b : num) : num :=
  match a, b with Fin p, Fin q => Fin (p - q) | _, _ => NaN end.

Definition num_mul (a b : num) : num :=
  match a, b with Fin p, Fin q => Fin (p * q) | _, _ => NaN end.

(** Comparisons with NaN are false. *)
Definition num_le (a b : num) : bool :=
  match a, b with Fin p, Fin q => Qle_bool p q | _, _ => false end.

Definition num_lt (a b : num) : bool :=
  match a, b with
  | Fin p, Fin q => Qle_bool p q && negb (Qeq_bool p q)
  | _, _ => false
  end.

(** Division by a divisor known not to be zero. *)
Definition num_quot (a b : num) : num :=
  match a, b with Fin p, Fin q => Fin (p / q) | _, _ => NaN end.

(** Division raises on a zero divisor; NaN propagates. *)
Definition num_div (a b : num) : Exception + num :=
  match a, b with
  | Fin p, Fin q =>
      if Qeq_bool q 0
      then inl {| kind := ZeroDivisionError; str := "float division by zero" |}
      else inr (Fin (p / q))
  | _, _ => inr NaN
  end.

(** [l[i]] with Python's negative indices. *)
Definition py_get {A} (l : list A) (i : Z) : option A :=
  let n := Z.of_nat (length l) in
  if (0 <=? i) && (i <? n) then l !! Z.to_nat i
  else if (- n <=? i) && (i <? 0) then l !! Z.to_nat (n + i)
  else None.

Definition hex_digit (c : ascii) : option Z :=
  let n := Z.of_nat (nat_of_ascii c) in
  if (48 <=? n) && (n <=? 57) then Some (n - 48)
  else if (97 <=? n) && (n <=? 102) then Some (n - 87)
  else if (65 <=? n) && (n <=? 70) then Some (n - 55)
  else None.

(** [int(s, 16)] of a two-character string. *)
Definition int16 (s : string) : option Z :=
  match s with
  | String a (String b EmptyString) =>
      match hex_digit a, hex_digit b with
      | Some h, Some l => Some (16 * h + l)
      | _, _ => None
      end
  | _ => None
  end.

Definition rgba : Type := num * num * num * num.

Definition _color_int_to_float (z : Z) : num := Fin (inject_Z z / 255).

(** [int(x * 255.9999)], truncating towards zero; NaN has no integer. *)
Definition _color_float_to_int (u : num) : option Z :=
  match u with
  | Fin q =>
      let r := (q * (2559999 # 10000))%Q in
      Some (Z.quot (Qnum r) (Zpos (Qden r)))
  | NaN => None
  end.

(** [_parse_hex] of a colour written [#rrggbb]: [color_code[1:3]],
    [color_code[3:5]] and [color_code[5:7]] read in base 16. *)
Definition _parse_hex (color_code : string) : option (num * num * num) :=
  match int16 (substring 1 2 color_code), int16 (substring 3 2 color_code),
        int16 (substring 5 2 color_code) with
  | Some r, Some g, Some b =>
      Some (_color_int_to_float r, _color_int_to_float g,
            _color_int_to_float b)
  | _, _, _ => None
  end.

(** [_parse_color] of a hexadecimal colour: its three channels, made
    opaque.  The script passes no colour of another form. *)
Definition _parse_color (c : string) : option rgba :=
  match _parse_hex c with
  | Some (r, g, b) => Some (r, g, b, Fin 1)
  | None => None
  end.

Record LinearColormap := {
  cm_index : list num;
  cm_colors : list rgba;
  vmin : num;
  vmax : num;
  caption : string
}.

Definition value_error (s : string) : Exception :=
  {| kind := ValueError; str := s |}.

Fixpoint parse_all (l : list string) : option (list rgba) :=
  match l with
  | nil => Some nil
  | c :: t =>
      match _parse_color c, parse_all t with
      | Some p, Some ps => Some (p :: ps)
      | _, _ => None
      end
  end.

(** The constructor: with no explicit index the colours are spread
    evenly over [vmin, vmax],
    [index = [vmin + (vmax - vmin) * i * 1.0 / (n - 1) for i in range(n)]]. *)
Definition new_LinearColormap (colors : list string) (lo hi : num)
    (cap : string) : Exception + LinearColormap :=
  let n := length colors in
  if (n <? 2)%nat
  then inl (value_error "You must provide at least 2 colors.")
  else
    match parse_all colors with
    | None => inl (value_error "Unrecognized color code")
    | Some cs =>
        inr {| cm_index :=
                 List.map
                   (fun i =>
                      num_add lo
                        (num_quot
                           (num_mul
                              (num_mul (num_sub hi lo) (of_int (Z.of_nat i)))
                              (Fin 1))
                           (of_int (Z.of_nat n - 1))))
                   (seq 0 n);
               cm_colors := cs;
               vmin := lo; vmax := hi; caption := cap |}
    end.

Definition index_error : Exception :=
  {| kind := IndexError; str := "list index out of range" |}.

Definition get_or_raise {A} (l : list A) (i : Z) : Exception + A :=
  match py_get l i with Some a => inr a | None => inl index_error end.

Definition mix (p : num) (a b : num) : num :=
  num_add (num_mul (num_sub (Fin 1) p) a) (num_mul p b).

(** [rgba_floats_tuple(x)]: the end colours outside the index, a linear
    interpolation between the two neighbouring colours inside it. *)
Definition rgba_floats_tuple (cmap : LinearColormap) (v : num)
  : Exception + rgba :=
  match get_or_raise (cm_index cmap) 0 with
  | inl e => inl e
  | inr first =>
      if num_le v first then get_or_raise (cm_colors cmap) 0
      else
        match get_or_raise (cm_index cmap) (-1) with
        | inl e => inl e
        | inr last =>
            if num_le last v then get_or_raise (cm_colors cmap) (-1)
            else
              let i :=
                Z.of_nat
                  (length (List.filter (fun u => num_lt u v) (cm_index cmap)))
              in
              match get_or_raise (cm_index cmap) (i - 1),
                    get_or_raise (cm_index cmap) i with
              | inr a, inr b =>
                  match num_div (num_mul (num_sub v a) (Fin 1))
                          (num_sub b a) with
                  | inl e => inl e
                  | inr p =>
                      match get_or_raise (cm_colors cmap) (i - 1),
                            get_or_raise (cm_colors cmap) i with
                      | inr (r1, g1, b1, a1), inr (r2, g2, b2, a2) =>
                          inr (mix p r1 r2, mix p g1 g2,
                               mix p b1 b2, mix p a1 a2)
                      | inl e, _ | _, inl e => inl e
                      end
                  end
              | inl e, _ | _, inl e => inl e
              end
        end
  end.

(** [rgba_bytes_tuple(x)]: every channel as [int(u * 255.9999)]. *)
Definition rgba_bytes_tuple (cmap : LinearColormap) (v : num)
  : Exception + (Z * Z * Z * Z) :=
  match rgba_floats_tuple cmap v with
  | inl e => inl e
  | inr (r, g, b, a) =>
      match _color_float_to_int r, _color_float_to_int g,
            _color_float_to_int b, _color_float_to_int a with
      | Some r, Some g, Some b, Some a => inr (r, g, b, a)
      | _, _, _, _ =>
          inl (value_error "cannot convert float NaN to integer")
      end
  end.

Definition hex_char (d : Z) : ascii :=
  if d <? 10 then ascii_of_nat (Z.to_nat (48 + d))
  else ascii_of_nat (Z.to_nat (87 + d)).

(** ["%02x" % z] for a byte value. *)
Definition fmt_02x (z : Z) : string :=
  String (hex_char (z / 16)) (String (hex_char (z mod 16)) "").

(** [rgba_hex_str(x)], which is what [cmap(x)] returns: the colour as
    [#rrggbbaa]. *)
Definition rgba_hex_str (cmap : LinearColormap) (v : num)
  : Exception + string :=
  match rgba_bytes_tuple cmap v with
  | inl e => inl e
  | inr (r, g, b, a) =>
      inr ("#" ++ fmt_02x r ++ fmt_02x g ++ fmt_02x b ++ fmt_02x a)
  end.

End Branca.
Import Branca.

(** ** folium: the map and its layers *)

Module Folium.

Record Style := {
  fillColor : string;
  color : string;
  weight : Q;
  fillOpacity : Q
}.

Record GeoJsonTooltip := {
  fields : list string;
  aliases : list string
}.

(** A location is [[lat, lon]]. *)
Definition Location : Type := Q * Q.

(** What the script adds to the map.  A [GeoJson] layer keeps, next to
    the frame, the style its [style_function] gives to each feature. *)
Inductive Layer :=
| GeoJson (data : GeoDataFrame) (name : string) (styles : list Style)
    (tooltip : GeoJsonTooltip)
| MarkerCluster (name : string) (markers : list Location)
| HeatMap (data : list Location) (name : string)
| Legend (cmap : LinearColormap)
| LayerControl
| MeasureControl.

Record Map := {
  location : Location;
  tiles : string;
  zoom_start : Z;
  children : list Layer
}.

Definition new_Map (loc : Location) (t : string) (z : Z) : Map :=
  {| location := loc; tiles := t; zoom_start := z; children := nil |}.

(** [layer.add_to(m)] and [m.add_child(layer)]. *)
Definition add_to (l : Layer) (m : Map) : Map :=
  {| location := location m; tiles := tiles m; zoom_start := zoom_start m;
     children := (children m ++ l :: nil)%list |}.

Definition is_HeatMap (l : Layer) : bool :=
  match l with HeatMap _ _ => true | _ => false end.

Definition is_MarkerCluster (l : Layer) : bool :=
  match l with MarkerCluster _ _ => true | _ => false end.

End Folium.
Import Folium.

(** ** streamlit: what a render cycle shows, and how it ends *)

Module Streamlit.

Inductive Element :=
| PageConfig (page_title page_icon layout : string)
| Title (body : string)
| Markdown (body : string)
| Error (body : string)
| Spinner (text : string)
| Header (body : string)
| Selectbox (label : string) (options : list string) (index : nat)
| Checkbox (label : string) (value : bool)
| Sidebar (e : Element)
| StFolium (m : Map) (width height : Z)
| DownloadButton (label : string) (data : list Byte.byte)
    (file_name mime : string).

(** A cycle runs to its end, is halted by [st.stop()], or dies of an
    exception nobody caught. *)
Inductive Result (A : Type) :=
| Done (a : A)
| Stopped
| Raised (e : Exception).
Arguments Done {A} a.
Arguments Stopped {A}.
Arguments Raised {A} e.

(** A piece of script: its result and the elements it put on the page,
    in order. *)
Definition Script (A : Type) : Type := Result A * list Element.

Definition ret {A} (a : A) : Script A := (Done a, nil).

Definition bind {A B} (c : Script A) (k : A -> Script B) : Script B :=
  match c with
  | (Done a, es) => let '(r, es') := k a in (r, (es ++ es')%list)
  | (Stopped, es) => (Stopped, es)
  | (Raised e, es) => (Raised e, es)
  end.

Definition emit (e : Element) : Script unit := (Done tt, e :: nil).
Definition stop {A} : Script A := (Stopped, nil).
Definition raise {A} (e : Exception) : Script A := (Raised e, nil).

(** A library call that may raise, run without a handler. *)
Definition try_ {A} (r : Exception + A) : Script A :=
  match r with inl e => raise e | inr a => ret a end.

(** [with st.sidebar: ...] *)
Definition in_sidebar {A} (c : Script A) : Script A :=
  (fst c, List.map Sidebar (snd c)).

(** Widgets return what the session holds for them, or their default
    when the user has not touched them. *)
Record Session := {
  chosen_tile : option nat;
  chosen_heatmap : option bool;
  chosen_clusters : option bool
}.

Definition selectbox (label : string) (options : list string) (index : nat)
    (chosen : option nat) : Script string :=
  (Done (nth (default index chosen) options ""),
   Selectbox label options index :: nil).

Definition checkbox (label : string) (value : bool) (chosen : option bool)
  : Script bool :=
  (Done (default value chosen), Checkbox label value :: nil).

End Streamlit.
Import Streamlit.

Notation "'let*' x ':=' c 'in' k" := (bind c (fun x => k))
  (at level 10, x name, c at level 100, k at level 200).
Notation "'run' c 'in' k" := (bind c (fun _ => k))
  (at level 10, c at level 100, k at level 200).

(** ** requests *)

Record Response := {
  status_code : Z;
  reason : string;
  content : string
}.

(** [response.raise_for_status()]: an [HTTPError] on a 4xx or 5xx status. *)
Definition raise_for_status (url : string) (r : Response)
  : Exception + unit :=
  if (400 <=? status_code r) && (status_code r <? 500)
  then inl {| kind := HTTPError;
              str := str_int (status_code r) ++ " Client Error: " ++ reason r
                     ++ " for url: " ++ url |}
  else if (500 <=? status_code r) && (status_code r <? 600)
  then inl {| kind := HTTPError;
              str := str_int (status_code r) ++ " Server Error: " ++ reason r
                     ++ " for url: " ++ url |}
  else inr tt.

(** * The script *)

(** The module-level names bound when a cycle runs to its end. *)
Record Globals := {
  bairros_data : GeoDataFrame;
  df_sb : GeoDataFrame;
  tile_layer : string;
  show_heatmap : bool;
  show_clusters : bool;
  m : Map;
  locations : list Location;
  csv : list Byte.byte
}.

Definition GITHUB_RAW_URL : string :=
  "https://raw.githubusercontent.com/Analissoares/meu-repositorio/main/".
Definition BAIRROS_URL : string := GITHUB_RAW_URL ++ "dados/bairros.geojson".
Definition SB_URL : string := GITHUB_RAW_URL ++ "dados/dados_SB.geojson".

(** The cells of a column that hold an integer. *)
Definition int_cells (l : list value) : list Z :=
  omap (fun v => match v with VInt z => Some z | _ => None end) l.

(** A property value used as a number. *)
Definition as_number (v : value) : Exception + num :=
  match v with
  | VInt z => inr (of_int z)
  | VBool b => inr (of_int (if b then 1 else 0))
  | VNone | VStr _ =>
      inl {| kind := TypeError;
             str := "'<=' not supported between instances" |}
  end.

Fixpoint mapM {A B} (f : A -> Exception + B) (l : list A)
  : Exception + list B :=
  match l with
  | nil => inr nil
  | a :: t =>
      match f a with
      | inl e => inl e
      | inr b =>
          match mapM f t with
          | inl e => inl e
          | inr bs => inr (b :: bs)
          end
      end
  end.

(** [df[names]]: a [KeyError] when a name is not a column. *)
Definition select_columns (df : GeoDataFrame) (names : list string)
  : Exception + DataFrame :=
  match List.find (fun n => negb (bool_decide (n ∈ columns df))) names with
  | Some n => inl {| kind := KeyError; str := n ++ " not in index" |}
  | None =>
      inr {| header := names;
             rows := List.map
                       (fun f => List.map
                                   (fun n => default VNone (properties f !! n))
                                   names)
                       (features df) |}
  end.

Section App.

(** The world a cycle runs in. *)
Variable contains : Geometry -> Geometry -> bool.
Variable transform : CRS -> CRS -> Q * Q -> Q * Q.
Variable requests_get : string -> Exception + Response.
Variable read_file : string -> Exception + GeoDataFrame.
Variable os : platform.

(** The [try] block of the loader. *)
Definition fetch (url : string) : Exception + GeoDataFrame :=
  match requests_get url with
  | inl e => inl e
  | inr response =>
      match raise_for_status url response with
      | inl e => inl e
      | inr _ => read_file (content response)
      end
  end.

(** [st.cache_data] stores what the function returned and showed for a
    URL and replays both within the hour; a cycle sees the call as
    written here, with the outcome the network or the cache holds. *)
Definition load_geojson_from_github (url : string)
  : Script (option GeoDataFrame) :=
  match fetch url with
  | inr df => ret (Some df)
  | inl e =>
      run emit (Error ("Erro ao carregar o arquivo: " ++ str e)) in
      run emit (Error ("URL tentada: " ++ url)) in
      ret None
  end.

(** Lines 56 to 58: the spatial join, the row count per polygon label
    and the new column. *)
Definition join (b s : GeoDataFrame) : list (nat * option nat) :=
  sjoin_left contains b s.

Definition counts (b s : GeoDataFrame) : gmap nat Z :=
  groupby_size (List.map fst (join b s)).

Definition sistemas_bancarios (b s : GeoDataFrame) : Series :=
  reindex (counts b s) (index b) 0.

Definition aggregate (b s : GeoDataFrame) : GeoDataFrame :=
  set_column b "sistemas_bancarios" (sistemas_bancarios b s).

Definition PROCESSING : string := "⚙️ Processando dados...".

(** Lines 51 to 58. *)
Definition process (b s : GeoDataFrame)
  : Script (GeoDataFrame * GeoDataFrame) :=
  run emit (Spinner PROCESSING) in
  let* b := try_ (to_crs transform b 4326) in
  let* s := try_ (to_crs transform s 4326) in
  ret (aggregate b s, s).

(** Lines 61 to 69. *)
Definition sidebar (ses : Session) : Script (string * bool * bool) :=
  in_sidebar
    (run emit (Header "Configurações do Mapa") in
     let* tile := selectbox "Estilo do Mapa Base"
                    ("OpenStreetMap" :: "CartoDB positron"
                       :: "Stamen Terrain" :: nil)
                    0 (chosen_tile ses) in
     let* heat := checkbox "Mostrar mapa de calor" true
                    (chosen_heatmap ses) in
     let* clus := checkbox "Mostrar agrupamento de marcadores" true
                    (chosen_clusters ses) in
     ret (tile, heat, clus)).

(** Lines 75 to 82. *)
Definition min_val (b : GeoDataFrame) : num :=
  num_of_stat (series_min (int_cells (column b "sistemas_bancarios"))).

Definition max_val (b : GeoDataFrame) : num :=
  num_of_stat (series_max (int_cells (column b "sistemas_bancarios"))).

Definition colormap (b : GeoDataFrame) : Exception + LinearColormap :=
  new_LinearColormap ("#fef9ef" :: "#f3d9b1" :: "#d8b07a" :: nil)
    (min_val b) (max_val b) "Quantidade de Sistemas Bancários".

(** Lines 85 to 92. *)
Definition style_function (cmap : LinearColormap) (feature : Feature)
  : Exception + Style :=
  let value := default (VInt 0)
                 (properties feature !! "sistemas_bancarios") in
  match as_number value with
  | inl e => inl e
  | inr v =>
      match rgba_hex_str cmap v with
      | inl e => inl e
      | inr c =>
          inr {| fillColor := c; color := "black";
                 weight := 15 # 10; fillOpacity := 7 # 10 |}
      end
  end.

(** Lines 116 to 120.  [[geom.y, geom.x]] is evaluated for the entries
    that pass the condition. *)
Definition is_marker (geom : option Geometry) : bool :=
  match geom with
  | None => false
  | Some g =>
      truthy geom && String.eqb (geom_type g) "Point" && negb (is_empty g)
  end.

Definition yx (geom : option Geometry) : Exception + Location :=
  match geom with
  | Some g =>
      match y g, x g with
      | Some b, Some a => inr (b, a)
      | _, _ => inl {| kind := ValueError;
                       str := "getting coordinates of a geometry that has none" |}
      end
  | None => inl {| kind := TypeError; str := "NoneType has no attribute y" |}
  end.

Definition marker_locations (s : GeoDataFrame)
  : Exception + list Location :=
  mapM yx (List.filter is_marker (geometries s)).

Definition tooltip : GeoJsonTooltip :=
  {| fields := "NOME" :: "sistemas_bancarios" :: nil;
     aliases := "Bairro:" :: "Qtd. de Sistemas Bancários:" :: nil |}.

(** A tooltip asserts that its fields are properties of the data. *)
Definition check_tooltip (t : GeoJsonTooltip) (b : GeoDataFrame)
  : Exception + unit :=
  match List.find (fun n => negb (bool_decide (n ∈ columns b))) (fields t)
  with
  | Some n => inl {| kind := AssertionError;
                     str := "The field " ++ n ++ " is not available in the data." |}
  | None => inr tt
  end.

Definition is_nil {A} (l : list A) : bool :=
  match l with nil => true | _ => false end.

(** Lines 72 to 137. *)
Definition build_map (tile : string) (heat clus : bool)
    (b s : GeoDataFrame) : Script (Map * list Location) :=
  let m0 := new_Map (-(255 # 10), -(493 # 10))%Q tile 12 in
  let* cmap := try_ (colormap b) in
  let* styles := try_ (mapM (style_function cmap) (features b)) in
  let* _ := try_ (check_tooltip tooltip b) in
  let m1 := add_to (GeoJson b "Sistemas Bancários por Bairro" styles tooltip)
              m0 in
  let* locs := try_ (marker_locations s) in
  let m2 := if clus
            then add_to (MarkerCluster "Sistemas Bancários (pontos)" locs) m1
            else m1 in
  let m3 := if heat && negb (is_nil locs)
            then add_to (HeatMap locs "Mapa de Calor") m2
            else m2 in
  let m4 := add_to (Legend cmap) m3 in
  let m5 := add_to LayerControl m4 in
  let m6 := add_to MeasureControl m5 in
  run emit (StFolium m6 1200 700) in
  ret (m6, locs).

(** Lines 149 to 151. *)
Definition convert_df (df : DataFrame) : list Byte.byte :=
  encode_utf8 (to_csv (linesep os) df).

Definition ABOUT : string := "
### ℹ️ Sobre os dados:
- **Bairros**: Dados geográficos dos bairros.
- **Sistemas Bancários**: Localização de agências bancárias.
- **Fonte**: Dados carregados diretamente do GitHub.
".

(** Lines 139 to 159. *)
Definition export (b : GeoDataFrame) : Script (list Byte.byte) :=
  run emit (Markdown "---") in
  run emit (Markdown ABOUT) in
  let* df := try_ (select_columns b ("NOME" :: "sistemas_bancarios" :: nil)) in
  let data := convert_df df in
  run emit (DownloadButton "⬇️ Baixar dados processados (CSV)" data
              "sistemas_bancarios_por_bairro.csv" "text/csv") in
  ret data.

(** One render cycle. *)
Definition app (ses : Session) : Script Globals :=
  run emit (PageConfig "Mapa de Sistemas Bancários" "🏦" "wide") in
  run emit (Title "🏦 Mapa de Sistemas Bancários por Bairro") in
  run emit (Markdown
              "Visualização interativa de dados geográficos carregados do GitHub") in
  run emit (Spinner "🔄 Carregando dados do GitHub...") in
  let* loaded_bairros := load_geojson_from_github BAIRROS_URL in
  let* loaded_sb := load_geojson_from_github SB_URL in
  match loaded_bairros with
  | None => stop
  | Some b0 =>
      match loaded_sb with
      | None => stop
      | Some s0 =>
          let* bs := process b0 s0 in
          let* cfg := sidebar ses in
          let '(tile, heat, clus) := cfg in
          let* ml := build_map tile heat clus (fst bs) (snd bs) in
          let* data := export (fst bs) in
          ret {| bairros_data := fst bs; df_sb := snd bs;
                 tile_layer := tile; show_heatmap := heat;
                 show_clusters := clus;
                 m := fst ml; locations := snd ml; csv := data |}
      end
  end.

End App.

(** * Notions of the specification *)

(** The number of rows of [s] whose geometry joins the polygon [p], and
    the number among them that the marker layer would keep (non-null,
    non-empty points). *)
Definition joined_count (contains : Geometry -> Geometry -> bool)
    (p : option Geometry) (s : GeoDataFrame) : nat :=
  length (hits contains p (geometries s)).

Definition points_inside (contains : Geometry -> Geometry -> bool)
    (p : option Geometry) (s : GeoDataFrame) : nat :=
  length (List.filter (fun g => is_marker g && joins contains p g)
            (geometries s)).

(** The integer column [sistemas_bancarios] of an aggregated frame. *)
Definition counted (contains : Geometry -> Geometry -> bool)
    (b s : GeoDataFrame) : list Z :=
  int_cells (column (aggregate contains b s) "sistemas_bancarios").

Definition sum_Z (l : list Z) : Z := List.fold_right Z.add 0 l.

(** No geometry of [s] joins two polygons of [b]. *)
Definition disjoint_polygons (contains : Geometry -> Geometry -> bool)
    (b s : GeoDataFrame) : Prop :=
  forall i j p q g,
    geometries b !! i = Some p -> geometries b !! j = Some q ->
    g ∈ geometries s ->
    joins contains p g = true -> joins contains q g = true -> i = j.

(** Rows of [s] that join at least one polygon of [b], and polygons of
    [b] that no row of [s] joins. *)
Definition covered (contains : Geometry -> Geometry -> bool)
    (b s : GeoDataFrame) : nat :=
  length (List.filter
            (fun g => existsb (fun p => joins contains p g) (geometries b))
            (geometries s)).

Definition barren (contains : Geometry -> Geometry -> bool)
    (b s : GeoDataFrame) : nat :=
  length (List.filter
            (fun p => negb (existsb (fun g => joins contains p g)
                              (geometries s)))
            (geometries b)).

(** The two ways a load can fail, in the words of the specification. *)
Inductive failure := FetchError | ParseError.

(** Longitude within 180 degrees and latitude within 90 degrees of zero. *)
Definition in_bounds (c : Q * Q) : Prop :=
  (-180 <= fst c <= 180)%Q /\ (-90 <= snd c <= 90)%Q.

Definition frame_in_bounds (df : GeoDataFrame) : Prop :=
  forall g c, Some g ∈ geometries df -> c ∈ coords g -> in_bounds c.

(** The location of a non-null, non-empty point; nothing otherwise. *)
Definition point_yx (geom : option Geometry) : option Location :=
  match geom with
  | Some (Point (Some (a, b))) => Some (b, a)
  | _ => None
  end.

Definition frame_of_pairs (l : list (string * Z)) : DataFrame :=
  {| header := "NOME" :: "sistemas_bancarios" :: nil;
     rows := List.map (fun nc => VStr (fst nc) :: VInt (snd nc) :: nil) l |}.

(** A name the CSV writer leaves alone on every platform. *)
Definition plain_name (s : string) : bool :=
  negb (any_char (fun c => Ascii.eqb c sep || Ascii.eqb c quotechar
                           || Ascii.eqb c CR || Ascii.eqb c LF) s).

(** ** Reading a delimited text

    What the rows and the values of an encoded text are is said by the
    reader of the format the writer produces: fields are parted by the
    comma and rows ended by the line terminator the text was written
    with; a field that starts with a double quote runs to the next
    double quote that is not doubled, whatever it holds in between, and
    two double quotes inside it stand for one.  Outside quotes, a
    carriage return or a line feed that is not the line terminator is a
    character of the field. *)

Inductive reader_state := FieldStart | InField | InQuotes | AfterQuote.

(** Where the reader is: its state, the field and the row read so far,
    and how many characters of a line terminator are still to skip. *)
Record reading := {
  rd_state : reader_state;
  rd_field : string;
  rd_row : list string;
  rd_skip : nat
}.

Definition at_ (st : reader_state) (f : string) (r : list string) : reading :=
  {| rd_state := st; rd_field := f; rd_row := r; rd_skip := 0 |}.

(** A character read outside quotes: the comma ends the field, the line
    terminator ends the row, anything else belongs to the field. *)
Definition plain_char (nl : string) (r : reading) (c : ascii) (t : string)
  : reading * option (list string) :=
  if Ascii.eqb c sep
  then (at_ FieldStart "" (rd_row r ++ rd_field r :: nil)%list, None)
  else if String.prefix nl (String c t)
  then ({| rd_state := FieldStart; rd_field := ""; rd_row := nil;
           rd_skip := (String.length nl - 1)%nat |},
        Some (rd_row r ++ rd_field r :: nil)%list)
  else (at_ InField (rd_field r ++ String c "") (rd_row r), None).

Definition reader_step (nl : string) (r : reading) (c : ascii) (t : string)
  : reading * option (list string) :=
  match rd_state r with
  | FieldStart =>
      if Ascii.eqb c quotechar then (at_ InQuotes "" (rd_row r), None)
      else plain_char nl r c t
  | InField => plain_char nl r c t
  | InQuotes =>
      if Ascii.eqb c quotechar
      then (at_ AfterQuote (rd_field r) (rd_row r), None)
      else (at_ InQuotes (rd_field r ++ String c "") (rd_row r), None)
  | AfterQuote =>
      if Ascii.eqb c quotechar
      then (at_ InQuotes (rd_field r ++ String quotechar "") (rd_row r), None)
      else plain_char nl r c t
  end.

(** At the end of the text a row that was begun is closed. *)
Definition reader_finish (r : reading) : list (list string) :=
  match rd_state r, rd_row r with
  | FieldStart, nil => nil
  | _, _ => (rd_row r ++ rd_field r :: nil)%list :: nil
  end.

Fixpoint read_rows (nl : string) (r : reading) (s : string)
  : list (list string) :=
  match s with
  | EmptyString => reader_finish r
  | String c t =>
      match rd_skip r with
      | S k =>
          read_rows nl
            {| rd_state := rd_state r; rd_field := rd_field r;
               rd_row := rd_row r; rd_skip := k |} t
      | O =>
          match reader_step nl r c t with
          | (r', Some fs) => fs :: read_rows nl r' t
          | (r', None) => read_rows nl r' t
          end
      end
  end.

Definition read_csv (nl : string) (s : string) : list (list string) :=
  read_rows nl (at_ FieldStart "" nil) s.

Definition decode_utf8 (bs : list Byte.byte) : string :=
  string_of_list_byte bs.

(** [int(s)] of a decimal text. *)
Definition parse_int (s : string) : option Z :=
  option_map Z.of_int (NilZero.int_of_string s).

(** A row of two fields read as a name and a count. *)
Definition pair_of_row (r : list string) : option (string * Z) :=
  match r with
  | n :: c :: nil => option_map (pair n) (parse_int c)
  | _ => None
  end.

Fixpoint pairs_of_rows (rs : list (list string))
  : option (list (string * Z)) :=
  match rs with
  | nil => Some nil
  | r :: rs =>
      match pair_of_row r, pairs_of_rows rs with
      | Some p, Some ps => Some (p :: ps)
      | _, _ => None
      end
  end.

(** The table an encoded text holds: its header row, and its other rows
    as name/count pairs. *)
Definition read_table (nl : string) (bs : list Byte.byte)
  : option (list string * list (string * Z)) :=
  match read_csv nl (decode_utf8 bs) with
  | nil => None
  | h :: rs => option_map (pair h) (pairs_of_rows rs)
  end.

(** ** Notions used in the proofs *)


(** How many times a label occurs among the keys of a grouping. *)
Definition occurrences (k : nat) (keys : list nat) : nat :=
  length (List.filter (Nat.eqb k) keys).

(** The joined pairs, counted polygon by polygon. *)
Fixpoint pairs_by_polygon (contains : Geometry -> Geometry -> bool)
    (ps gs : list (option Geometry)) : nat :=
  match ps with
  | nil => 0%nat
  | p :: ps =>
      (length (List.filter (joins contains p) gs)
       + pairs_by_polygon contains ps gs)%nat
  end.

(** The map widget and the download button. *)
Definition shows_map_or_csv (e : Element) : bool :=
  match e with
  | StFolium _ _ _ | DownloadButton _ _ _ _ => true
  | _ => false
  end.

(** What every cycle shows before the data is there. *)
Definition PREAMBLE : list Element :=
  PageConfig "Mapa de Sistemas Bancários" "🏦" "wide"
  :: Title "🏦 Mapa de Sistemas Bancários por Bairro"
  :: Markdown
       "Visualização interativa de dados geográficos carregados do GitHub"
  :: Spinner "🔄 Carregando dados do GitHub..." :: nil.

(** The two messages of a failed load. *)
Definition load_errors (url : string) (e : Exception) : list Element :=
  Error ("Erro ao carregar o arquivo: " ++ str e)
  :: Error ("URL tentada: " ++ url) :: nil.

(** What the specification asks for the caller of the loader: some
    function of what the call hands back tells a fetch failure from a
    parse failure. *)
Definition tells_failures_apart
    (classify : Result (option GeoDataFrame) -> option failure) : Prop :=
  forall (requests_get : string -> Exception + Response)
         (read_file : string -> Exception + GeoDataFrame)
         (url : string) (e : Exception),
    let returned :=
      fst (load_geojson_from_github requests_get read_file url) in
    (requests_get url = inl e -> classify returned = Some FetchError)
    /\ (forall r, requests_get url = inr r ->
                  raise_for_status url r = inl e ->
                  classify returned = Some FetchError)
    /\ (forall r, requests_get url = inr r ->
                  raise_for_status url r = inr tt ->
                  read_file (content r) = inl e ->
                  classify returned = Some ParseError).

(** The style of a polygon painted with the first colour of the palette. *)
Definition PALE : Style :=
  {| fillColor := "#fef9efff"; color := "black";
     weight := 15 # 10; fillOpacity := 7 # 10 |}.

(** The layers of a finished map, in the order they were added. *)
Definition layers (heat clus : bool) (b : GeoDataFrame)
    (cmap : LinearColormap) (styles : list Style) (locs : list Location)
  : list Layer :=
  (GeoJson b "Sistemas Bancários por Bairro" styles tooltip
   :: (if clus
       then MarkerCluster "Sistemas Bancários (pontos)" locs :: nil
       else nil)
   ++ (if heat && negb (is_nil locs)
       then HeatMap locs "Mapa de Calor" :: nil
       else nil)
   ++ Legend cmap :: LayerControl :: MeasureControl :: nil)%list.

(** ** A small world to run the script in *)

Module Sample.

(** Containment in the open box spanned by the first two corners of a
    polygon: every coordinate of the other geometry lies inside. *)
Definition Qlt_bool (a b : Q) : bool := Qle_bool a b && negb (Qeq_bool a b).

Definition box_contains (a b : Geometry) : bool :=
  match a with
  | Shape Polygon ((x0, y0) :: (x1, y1) :: _) =>
      forallb
        (fun c => Qlt_bool x0 (fst c) && Qlt_bool (fst c) x1
                  && Qlt_bool y0 (snd c) && Qlt_bool (snd c) y1)
        (coords b)
  | _ => false
  end.

Definition no_transform (_ _ : CRS) (c : Q * Q) : Q * Q := c.

Definition bairro (nome : string) (g : Geometry) : Feature :=
  {| properties := {[ "NOME" := VStr nome ]}; geometry := Some g |}.

Definition ponto (g : option Geometry) : Feature :=
  {| properties := ∅; geometry := g |}.

Definition box (x0 y0 x1 y1 : Q) : Geometry :=
  Shape Polygon ((x0, y0) :: (x1, y1) :: (x0, y1) :: (x1, y0) :: nil).

Definition bairros : GeoDataFrame :=
  {| crs := Some (EPSG 4326); columns := "NOME" :: nil;
     features := bairro "Centro" (box 0 0 10 10)
                 :: bairro "Batel" (box 20 20 30 30) :: nil |}.

Definition agencias : GeoDataFrame :=
  {| crs := Some (EPSG 4326); columns := nil;
     features := ponto (Some (Point (Some (1, 1)%Q)))
                 :: ponto (Some (Point (Some (2, 3)%Q)))
                 :: ponto (Some (Point None))
                 :: ponto None
                 :: ponto (Some (Shape LineString ((4, 4) :: (5, 5) :: nil)%Q))
                 :: nil |}.

(** One neighbourhood and no bank at all. *)
Definition so_batel : GeoDataFrame :=
  {| crs := Some (EPSG 4326); columns := "NOME" :: nil;
     features := bairro "Batel" (box 20 20 30 30) :: nil |}.

Definition sem_agencias : GeoDataFrame :=
  {| crs := Some (EPSG 4326); columns := nil; features := nil |}.

(** Two neighbourhoods that were counted alike. *)
Definition contado (nome : string) (n : Z) (g : Geometry) : Feature :=
  {| properties := <[ "sistemas_bancarios" := VInt n ]> {[ "NOME" := VStr nome ]};
     geometry := Some g |}.

Definition iguais : GeoDataFrame :=
  {| crs := Some (EPSG 4326);
     columns := "NOME" :: "sistemas_bancarios" :: nil;
     features := contado "Centro" 3 (box 0 0 10 10)
                 :: contado "Batel" 3 (box 20 20 30 30) :: nil |}.

(** A frame in EPSG:4326 whose only point is at longitude 200. *)
Definition fora : GeoDataFrame :=
  {| crs := Some (EPSG 4326); columns := nil;
     features := ponto (Some (Point (Some (200, 100)%Q))) :: nil |}.

Definition ok (body : string) : Exception + Response :=
  inr {| status_code := 200; reason := "OK"; content := body |}.

(** Every URL answers with its own name as body; the reader knows the
    two files by that name. *)
Definition get_ok (url : string) : Exception + Response := ok url.

Definition read_ok (body : string) : Exception + GeoDataFrame :=
  if String.eqb body BAIRROS_URL then inr bairros else inr agencias.

(** The host cannot be reached. *)
Definition get_down (url : string) : Exception + Response :=
  inl {| kind := ConnectionError; str := "Max retries exceeded" |}.

(** The answer arrives and is not GeoJSON. *)
Definition read_bad (body : string) : Exception + GeoDataFrame :=
  inl {| kind := DataSourceError; str := "not recognized as a supported file format" |}.

(** The points file is missing on the server. *)
Definition get_404_sb (url : string) : Exception + Response :=
  if String.eqb url SB_URL
  then inr {| status_code := 404; reason := "Not Found"; content := "" |}
  else ok url.

Definition untouched : Session :=
  {| chosen_tile := None; chosen_heatmap := None; chosen_clusters := None |}.

End Sample.

(** ** Notions used for the further properties *)

(** The script from line 50 on, once both files are loaded. *)
Definition after_load (contains : Geometry -> Geometry -> bool)
    (transform : CRS -> CRS -> Q * Q -> Q * Q) (os : platform)
    (ses : Session) (b0 s0 : GeoDataFrame) : Script Globals :=
  let* bs := process contains transform b0 s0 in
  let* cfg := sidebar ses in
  let '(tile, heat, clus) := cfg in
  let* ml := build_map tile heat clus (fst bs) (snd bs) in
  let* data := export os (fst bs) in
  ret {| bairros_data := fst bs; df_sb := snd bs;
         tile_layer := tile; show_heatmap := heat;
         show_clusters := clus;
         m := fst ml; locations := snd ml; csv := data |}.

(** What the sidebar shows. *)
Definition SIDEBAR : list Element :=
  Sidebar (Header "Configurações do Mapa")
  :: Sidebar (Selectbox "Estilo do Mapa Base"
                ("OpenStreetMap" :: "CartoDB positron"
                   :: "Stamen Terrain" :: nil) 0)
  :: Sidebar (Checkbox "Mostrar mapa de calor" true)
  :: Sidebar (Checkbox "Mostrar agrupamento de marcadores" true) :: nil.

(** What follows the map on the page. *)
Definition FOOTER (data : list Byte.byte) : list Element :=
  Markdown "---"
  :: Markdown ABOUT
  :: DownloadButton "⬇️ Baixar dados processados (CSV)" data
       "sistemas_bancarios_por_bairro.csv" "text/csv" :: nil.

Definition is_Error (e : Element) : bool :=
  match e with Error _ => true | _ => false end.

Definition is_DownloadButton (e : Element) : bool :=
  match e with DownloadButton _ _ _ _ => true | _ => false end.

(** A colour whose four channels are numbers. *)
Definition finite_rgba (c : rgba) : Prop :=
  exists r g b a, c = (Fin r, Fin g, Fin b, Fin a).

(** The style of a polygon painted with the last colour of the palette. *)
Definition DARK : Style :=
  {| fillColor := "#d8b07aff"; color := "black";
     weight := 15 # 10; fillOpacity := 7 # 10 |}.

(** The fixed part of every style. *)
Definition outlined (st : Style) : Prop :=
  color st = "black" /\ weight st = 15 # 10 /\ fillOpacity st = 7 # 10.

(** The count a feature holds, when it holds an integer. *)
Definition count_of (f : Feature) : option Z :=
  match properties f !! "sistemas_bancarios" with
  | Some (VInt z) => Some z
  | _ => None
  end.

(** The names the CSV writer puts between double quotes on a platform:
    those with a comma, a double quote or a line feed, and on Windows
    also those with a carriage return. *)
Definition needs_quotes (os : platform) (s : string) : bool :=
  any_char (fun c => Ascii.eqb c sep || Ascii.eqb c quotechar
                     || Ascii.eqb c LF
                     || match os with
                        | Nt => Ascii.eqb c CR
                        | Posix => false
                        end) s.

(** The index entry number [k] of a three-colour scale from [lo] to [hi]. *)
Definition index_entry (lo hi : Q) (k : nat) : Q :=
  (lo + (hi - lo) * inject_Z (Z.of_nat k) * 1 / inject_Z (Z.of_nat 3 - 1))%Q.

(** ** More of the small world *)

Module More.

(** The points of the sample with the first two rows swapped. *)
Definition agencias_trocadas : GeoDataFrame :=
  {| crs := Some (EPSG 4326); columns := nil;
     features := Sample.ponto (Some (Point (Some (2, 3)%Q)))
                 :: Sample.ponto (Some (Point (Some (1, 1)%Q)))
                 :: Sample.ponto (Some (Point None))
                 :: Sample.ponto None
                 :: Sample.ponto
                      (Some (Shape LineString ((4, 4) :: (5, 5) :: nil)%Q))
                 :: nil |}.

(** The polygons of the sample read from a file that names no reference
    system. *)
Definition sem_crs : GeoDataFrame :=
  {| crs := None; columns := columns Sample.bairros;
     features := features Sample.bairros |}.

Definition read_sem_crs (body : string) : Exception + GeoDataFrame :=
  if String.eqb body BAIRROS_URL then inr sem_crs else inr Sample.agencias.

(** Polygons without a name column. *)
Definition sem_nome : GeoDataFrame :=
  {| crs := Some (EPSG 4326); columns := nil;
     features := Sample.ponto (Some (Sample.box 0 0 10 10)) :: nil |}.

Definition read_sem_nome (body : string) : Exception + GeoDataFrame :=
  if String.eqb body BAIRROS_URL then inr sem_nome else inr Sample.agencias.

(** Points in a projected system, and a transformer that scales them
    down. *)
Definition projetado : GeoDataFrame :=
  {| crs := Some (EPSG 31982); columns := "banco" :: nil;
     features :=
       {| properties := {[ "banco" := VStr "Caixa" ]};
          geometry := Some (Point (Some (100, 300)%Q)) |}
       :: Sample.ponto (Some (Point None))
       :: Sample.ponto None :: nil |}.

Definition scale_down (_ _ : CRS) (c : Q * Q) : Q * Q :=
  (fst c / 100, snd c / 100)%Q.

(** Two neighbourhoods counted 1 and 3. *)
Definition desiguais : GeoDataFrame :=
  {| crs := Some (EPSG 4326);
     columns := "NOME" :: "sistemas_bancarios" :: nil;
     features := Sample.contado "Batel" 1 (Sample.box 20 20 30 30)
                 :: Sample.contado "Centro" 3 (Sample.box 0 0 10 10) :: nil |}.

End More.

(** * Theorems *)

(** ** The aggregation, step by step *)

Section Aggregation.
Variable contains : Geometry -> Geometry -> bool.

Lemma groupby_size_lookup (keys : list nat) (k : nat) :
  groupby_size keys !! k =
    if decide (occurrences k keys = 0%nat) then None
    else Some (Z.of_nat (occurrences k keys)).
Proof.
  induction keys as [|a keys IH]; [by cbn; rewrite lookup_empty|].
  cbn [groupby_size List.fold_right]. fold (groupby_size keys).
  unfold occurrences in *. cbn [List.filter].
  destruct (Nat.eqb_spec k a) as [->|Hne].
  - rewrite lookup_insert_eq, IH. cbn [length].
    destruct (decide (S _ = 0%nat)) as [|_]; [lia|].
    destruct (decide (_ = 0%nat)) as [->|_]; cbn; f_equal; lia.
  - rewrite lookup_insert_ne by congruence. apply IH.
Qed.

Lemma occurrences_app (k : nat) (l1 l2 : list nat) :
  occurrences k (l1 ++ l2) = (occurrences k l1 + occurrences k l2)%nat.
Proof. unfold occurrences. by rewrite List.filter_app, length_app. Qed.

Lemma occurrences_repeat (k i n : nat) :
  occurrences k (repeat i n) = if decide (k = i) then n else 0%nat.
Proof.
  unfold occurrences. induction n as [|n IH]; cbn.
  - by destruct (decide _).
  - destruct (Nat.eqb_spec k i); destruct (decide (k = i)); cbn; try lia;
      congruence.
Qed.

(** A left row of the join contributes its label once per hit, and once
    when there is no hit. *)
Lemma left_rows_labels (i : nat) (l : option Geometry)
    (right : list (option Geometry)) :
  List.map fst (left_rows contains i l right)
  = repeat i (Nat.max 1 (length (hits contains l right))).
Proof.
  unfold left_rows. destruct (hits contains l right) as [|j js]; [reflexivity|].
  cbn. f_equal. induction js as [|a t IH]; cbn; [done|]. by rewrite IH.
Qed.

Lemma join_labels_from (right : list (option Geometry))
    (gs : list (option Geometry)) (s k : nat) :
  occurrences k
    (List.map fst
       (List.concat
          (List.map (fun il => left_rows contains (fst il) (snd il) right)
             (combine (seq s (length gs)) gs))))
  = if decide (s <= k)%nat
    then match gs !! (k - s)%nat with
         | Some g => Nat.max 1 (length (hits contains g right))
         | None => 0%nat
         end
    else 0%nat.
Proof.
  revert s. induction gs as [|g gs IH]; intros s.
  - cbn. by destruct (decide _).
  - cbn [length seq combine List.map List.concat fst snd].
    rewrite List.map_app, occurrences_app, left_rows_labels,
      occurrences_repeat, IH.
    destruct (decide (k = s)) as [->|Hne].
    + rewrite Nat.sub_diag. cbn.
      destruct (decide (S s <= s)%nat); [lia|].
      destruct (decide (s <= s)%nat); lia.
    + destruct (decide (S s <= k)%nat), (decide (s <= k)%nat); try lia.
      replace (k - s)%nat with (S (k - S s)) by lia. done.
Qed.

Lemma counts_lookup (b s : GeoDataFrame) (i : nat) (p : option Geometry) :
  geometries b !! i = Some p ->
  counts contains b s !! i
  = Some (Z.of_nat (Nat.max 1 (joined_count contains p s))).
Proof.
  intros Hp. unfold counts, join, sjoin_left, index.
  rewrite groupby_size_lookup.
  replace (length (features b)) with (length (geometries b))
    by (unfold geometries; apply length_map).
  rewrite join_labels_from. destruct (decide (0 <= i)%nat); [|lia].
  rewrite Nat.sub_0_r, Hp. unfold joined_count.
  destruct (decide _); [lia|done].
Qed.

Lemma series_at_reindex (m : gmap nat Z) (labels : list nat) (fill : Z)
    (k : nat) :
  k ∈ labels ->
  series_at (reindex m labels fill) k = Some (default fill (m !! k)).
Proof.
  unfold series_at, reindex. induction labels as [|a t IH]; intros Hin.
  - by apply elem_of_nil in Hin.
  - cbn. destruct (Nat.eqb_spec a k) as [->|Hne]; [done|].
    apply elem_of_cons in Hin as [->|Hin]; [done|]. by apply IH.
Qed.

Lemma map_indexed_ext {A B} (G : nat -> A -> B) (H : A -> B)
    (l : list A) (s : nat) :
  (forall i a, l !! i = Some a -> G (s + i)%nat a = H a) ->
  List.map (fun ia => G (fst ia) (snd ia)) (combine (seq s (length l)) l)
  = List.map H l.
Proof.
  revert s. induction l as [|a l IH]; intros s Hext; [done|].
  cbn. f_equal.
  - rewrite <- (Hext 0%nat a eq_refl). f_equal. lia.
  - apply IH. intros i a' Hi. rewrite <- (Hext (S i) a' Hi). f_equal. lia.
Qed.

(** What the code computes: every polygon gets the number of rows that
    join it, and 1 when none does. *)
Lemma column_aggregate (b s : GeoDataFrame) :
  column (aggregate contains b s) "sistemas_bancarios"
  = List.map
      (fun p => VInt (Z.of_nat (Nat.max 1 (joined_count contains p s))))
      (geometries b).
Proof.
  unfold column, aggregate, set_column, geometries. cbn [features].
  rewrite !List.map_map. unfold index.
  apply (map_indexed_ext
           (fun i f => default VNone
              (<["sistemas_bancarios" :=
                   from_option VInt VNone
                     (series_at (sistemas_bancarios contains b s) i)]>
                 (properties f) !! "sistemas_bancarios"))).
  intros i f Hf. rewrite lookup_insert_eq. cbn.
  unfold sistemas_bancarios. rewrite series_at_reindex.
  - rewrite (counts_lookup b s i (geometry f)); [done|].
    unfold geometries. by rewrite list_lookup_fmap, Hf.
  - unfold index. apply elem_of_seq. apply lookup_lt_Some in Hf. lia.
Qed.

End Aggregation.

Section Counting.
Variable contains : Geometry -> Geometry -> bool.

Lemma int_cells_VInt {A} (f : A -> Z) (l : list A) :
  int_cells (List.map (fun a => VInt (f a)) l) = List.map f l.
Proof. unfold int_cells. induction l as [|a l IH]; cbn; [done|]. by rewrite IH. Qed.

Lemma counted_eq (b s : GeoDataFrame) :
  counted contains b s
  = List.map (fun p => Z.of_nat (Nat.max 1 (joined_count contains p s)))
      (geometries b).
Proof.
  unfold counted. rewrite column_aggregate.
  apply (int_cells_VInt
           (fun p => Z.of_nat (Nat.max 1 (joined_count contains p s)))).
Qed.

Lemma hits_length (p : option Geometry) (gs : list (option Geometry)) :
  length (hits contains p gs)
  = length (List.filter (joins contains p) gs).
Proof.
  unfold hits. rewrite length_map. generalize 0%nat.
  induction gs as [|g gs IH]; intros n; [done|].
  cbn. destruct (joins contains p g); cbn; by rewrite IH.
Qed.

Lemma joined_count_filter (p : option Geometry) (s : GeoDataFrame) :
  joined_count contains p s
  = length (List.filter (joins contains p) (geometries s)).
Proof. apply hits_length. Qed.

Lemma joined_count_zero (p : option Geometry) (s : GeoDataFrame) :
  joined_count contains p s = 0%nat
  <-> existsb (fun g => joins contains p g) (geometries s) = false.
Proof.
  rewrite joined_count_filter. induction (geometries s) as [|g gs IH]; [done|].
  cbn. destruct (joins contains p g); cbn; [split; discriminate|exact IH].
Qed.

(** The markers counted for a polygon are among the rows that join it. *)
Lemma points_inside_le (p : option Geometry) (s : GeoDataFrame) :
  (points_inside contains p s <= joined_count contains p s)%nat.
Proof.
  rewrite joined_count_filter. unfold points_inside.
  induction (geometries s) as [|g gs IH]; [done|].
  cbn. destruct (joins contains p g); rewrite ?andb_true_r, ?andb_false_r;
    [destruct (is_marker g)|]; cbn; lia.
Qed.

Lemma pairs_by_polygon_cons_r (ps : list (option Geometry))
    (g : option Geometry) (gs : list (option Geometry)) :
  pairs_by_polygon contains ps (g :: gs)
  = (length (List.filter (fun p => joins contains p g) ps)
     + pairs_by_polygon contains ps gs)%nat.
Proof.
  induction ps as [|p ps IH]; [done|].
  simpl. rewrite IH. destruct (joins contains p g); simpl; lia.
Qed.

Lemma at_most_one {A} (P : A -> bool) (l : list A) :
  (forall i j a c, l !! i = Some a -> l !! j = Some c ->
                   P a = true -> P c = true -> i = j) ->
  length (List.filter P l) = if existsb P l then 1%nat else 0%nat.
Proof.
  induction l as [|a l IH]; intros Huniq; [done|].
  cbn. destruct (P a) eqn:Ha.
  - cbn. f_equal.
    assert (Hnone : forall c, c ∈ l -> P c = false).
    { intros c Hc. apply list_elem_of_lookup in Hc as [j Hj].
      destruct (P c) eqn:Hc; [|done].
      by specialize (Huniq 0%nat (S j) a c eq_refl Hj Ha Hc). }
    clear -Hnone. induction l as [|c l IH]; [done|].
    cbn. rewrite (Hnone c) by apply list_elem_of_here.
    apply IH. intros d Hd. apply Hnone. by apply list_elem_of_further.
  - cbn. apply IH. intros i j b c Hi Hj Hb Hc.
    by specialize (Huniq (S i) (S j) b c Hi Hj Hb Hc) as [= ->].
Qed.

Lemma pairs_disjoint (ps gs : list (option Geometry)) :
  (forall i j p q g, ps !! i = Some p -> ps !! j = Some q -> g ∈ gs ->
                     joins contains p g = true ->
                     joins contains q g = true -> i = j) ->
  pairs_by_polygon contains ps gs
  = length (List.filter
              (fun g => existsb (fun p => joins contains p g) ps) gs).
Proof.
  induction gs as [|g gs IH]; intros Hdis.
  - clear Hdis. cbn. induction ps as [|p ps IHp]; [done|]. cbn. exact IHp.
  - rewrite pairs_by_polygon_cons_r, IH.
    + rewrite (at_most_one (fun p => joins contains p g)).
      * cbn. by destruct (existsb _ ps).
      * intros i j p q Hi Hj Hp Hq.
        exact (Hdis i j p q g Hi Hj (list_elem_of_here _ _) Hp Hq).
    + intros i j p q g' Hi Hj Hg'. apply (Hdis i j p q g' Hi Hj).
      by apply list_elem_of_further.
Qed.

Lemma sum_counted_split (ps : list (option Geometry)) (s : GeoDataFrame) :
  sum_Z (List.map
           (fun p => Z.of_nat (Nat.max 1 (joined_count contains p s))) ps)
  = Z.of_nat (pairs_by_polygon contains ps (geometries s))
    + Z.of_nat
        (length
           (List.filter
              (fun p => negb (existsb (fun g => joins contains p g)
                                (geometries s))) ps)).
Proof.
  induction ps as [|p ps IH]; [done|].
  cbn [List.map sum_Z List.fold_right pairs_by_polygon List.filter].
  fold (sum_Z (List.map
                 (fun p => Z.of_nat (Nat.max 1 (joined_count contains p s)))
                 ps)).
  rewrite IH. rewrite <- joined_count_filter.
  destruct (existsb (fun g => joins contains p g) (geometries s)) eqn:Hex.
  - assert (joined_count contains p s <> 0%nat)
      by (rewrite joined_count_zero; congruence).
    cbn [negb]. lia.
  - apply joined_count_zero in Hex. rewrite Hex. cbn [negb length]. lia.
Qed.

End Counting.

(** C1.  A polygon that holds no point of the point frame never gets the
    count 0: its count is at least 1, and exactly 1 when no row at all
    joins it.  The left join keeps one row for such a polygon and
    [size()] counts that row, so that [reindex] finds every label and
    never fills in its 0.  The column does hold one entry per polygon. *)
Theorem C1_unmatched_polygon_counts_one
    (contains : Geometry -> Geometry -> bool) (b s : GeoDataFrame)
    (i : nat) (p : option Geometry) :
  geometries b !! i = Some p ->
  points_inside contains p s = 0%nat ->
  (exists c,
      column (aggregate contains b s) "sistemas_bancarios" !! i
      = Some (VInt c)
      /\ 1 <= c
      /\ (joined_count contains p s = 0%nat -> c = 1))
  /\ length (column (aggregate contains b s) "sistemas_bancarios")
     = length (features b).
Proof.
  intros Hp _. rewrite column_aggregate. split.
  - exists (Z.of_nat (Nat.max 1 (joined_count contains p s))).
    rewrite list_lookup_fmap, Hp. split; [done|]. split; [lia|].
    by intros ->.
  - unfold geometries. by rewrite !length_map.
Qed.

Lemma C1_unmatched_polygon_counts_one_witness :
  points_inside Sample.box_contains (Some (Sample.box 20 20 30 30))
    Sample.sem_agencias = 0%nat
  /\ (exists c,
         column (aggregate Sample.box_contains Sample.so_batel
                   Sample.sem_agencias) "sistemas_bancarios" !! 0%nat
         = Some (VInt c)
         /\ 1 <= c
         /\ (joined_count Sample.box_contains
               (Some (Sample.box 20 20 30 30)) Sample.sem_agencias = 0%nat ->
             c = 1)).
Proof.
  split; [reflexivity|].
  apply (C1_unmatched_polygon_counts_one Sample.box_contains Sample.so_batel
           Sample.sem_agencias 0%nat
           (Some (Sample.box 20 20 30 30))); reflexivity.
Defined.

(** The neighbourhood without banks is counted 1. *)
Example batel_alone_counts_one :
  column (aggregate Sample.box_contains Sample.so_batel Sample.sem_agencias)
    "sistemas_bancarios" = VInt 1 :: nil.
Proof. reflexivity. Qed.

(** C2.  The count of a polygon is the number of rows of the point frame
    whose geometry joins it, whatever the type of that geometry, each
    polygon on its own; and it is 1 instead of 0 when no row joins. *)
Theorem C2_count_is_joined_rows_or_one
    (contains : Geometry -> Geometry -> bool) (b s : GeoDataFrame) :
  column (aggregate contains b s) "sistemas_bancarios"
  = List.map (fun p => VInt (Z.of_nat (Nat.max 1 (joined_count contains p s))))
      (geometries b).
Proof. apply column_aggregate. Qed.

(** C3.  Every count is at least 0 (indeed at least 1).  Over polygons
    that share no joined row, the counts add up to the number of rows
    that join some polygon plus the number of polygons that no row
    joins. *)
Theorem C3_counts_nonnegative_and_sum
    (contains : Geometry -> Geometry -> bool) (b s : GeoDataFrame) :
  Forall (fun c => 0 <= c) (counted contains b s)
  /\ (disjoint_polygons contains b s ->
      sum_Z (counted contains b s)
      = Z.of_nat (covered contains b s) + Z.of_nat (barren contains b s)).
Proof.
  rewrite counted_eq. split.
  - apply Forall_forall. intros c Hc.
    apply list_elem_of_fmap in Hc as [p [-> _]]. lia.
  - intros Hdis. rewrite sum_counted_split. unfold covered, barren.
    by rewrite (pairs_disjoint contains (geometries b) (geometries s) Hdis).
Qed.

Section Loading.
Variable contains : Geometry -> Geometry -> bool.
Variable transform : CRS -> CRS -> Q * Q -> Q * Q.
Variable requests_get : string -> Exception + Response.
Variable read_file : string -> Exception + GeoDataFrame.
Variable os : platform.

Abbreviation fetch := (fetch requests_get read_file).
Abbreviation load := (load_geojson_from_github requests_get read_file).
Abbreviation app := (app contains transform requests_get read_file os).

Lemma load_ok (url : string) (df : GeoDataFrame) :
  fetch url = inr df -> load url = (Done (Some df), nil).
Proof. intros H. unfold load_geojson_from_github. by rewrite H. Qed.

Lemma load_failed (url : string) (e : Exception) :
  fetch url = inl e -> load url = (Done None, load_errors url e).
Proof. intros H. unfold load_geojson_from_github. by rewrite H. Qed.

(** The page of a cycle in which a load failed. *)
Lemma app_load_failed (ses : Session) :
  (exists e, fetch BAIRROS_URL = inl e) \/ (exists e, fetch SB_URL = inl e) ->
  app ses
  = (Stopped,
     (PREAMBLE
      ++ match fetch BAIRROS_URL with
         | inl e => load_errors BAIRROS_URL e
         | inr _ => nil
         end
      ++ match fetch SB_URL with
         | inl e => load_errors SB_URL e
         | inr _ => nil
         end)%list).
Proof.
  intros Hfail. unfold app.
  destruct (fetch BAIRROS_URL) as [e1|b0] eqn:Hb;
    destruct (fetch SB_URL) as [e2|s0] eqn:Hs.
  - rewrite (load_failed _ _ Hb), (load_failed _ _ Hs). reflexivity.
  - rewrite (load_failed _ _ Hb), (load_ok _ _ Hs). reflexivity.
  - rewrite (load_ok _ _ Hb), (load_failed _ _ Hs). reflexivity.
  - destruct Hfail as [[e He]|[e He]]; discriminate.
Qed.
End Loading.

(** C4.  When the load of either file fails, the page shows the message
    that names the URL that failed, the cycle is halted by [st.stop()]
    before the processing stage (reprojection and aggregation) starts,
    and neither the map nor the CSV download button is shown. *)
Theorem C4_load_failure_halts_cycle
    (contains : Geometry -> Geometry -> bool)
    (transform : CRS -> CRS -> Q * Q -> Q * Q)
    (requests_get : string -> Exception + Response)
    (read_file : string -> Exception + GeoDataFrame)
    (os : platform) (ses : Session) (url : string) (e : Exception) :
  url = BAIRROS_URL \/ url = SB_URL ->
  fetch requests_get read_file url = inl e ->
  let cycle := app contains transform requests_get read_file os ses in
  fst cycle = Stopped
  /\ (Error ("URL tentada: " ++ url) ∈ snd cycle)
  /\ (Spinner PROCESSING ∉ snd cycle)
  /\ forallb (fun el => negb (shows_map_or_csv el)) (snd cycle) = true.
Proof.
  intros Hurl Hfail cycle. subst cycle.
  rewrite app_load_failed
    by (destruct Hurl as [->| ->]; [left|right]; by exists e).
  cbn [fst snd]. split; [done|]. split; [|split].
  - destruct Hurl as [->| ->]; rewrite Hfail.
    + unfold PREAMBLE, load_errors. set_solver.
    + unfold PREAMBLE, load_errors. destruct (fetch _ _ BAIRROS_URL); set_solver.
  - unfold PREAMBLE, load_errors.
    destruct (fetch _ _ BAIRROS_URL), (fetch _ _ SB_URL); cbn;
      intros Hin; repeat (apply elem_of_cons in Hin as [Hin|Hin]; [discriminate|]);
      by apply elem_of_nil in Hin.
  - unfold PREAMBLE, load_errors.
    by destruct (fetch _ _ BAIRROS_URL), (fetch _ _ SB_URL).
Qed.

(** C6, as the code has it.  The loader never raises and never stops the
    cycle.  It returns the frame and shows nothing, or it returns [None]
    after showing the text of the exception and the URL; the exception
    came from the request, from the status check or from the reader, and
    [None] is returned in all three cases. *)
Theorem C6_loader_returns_frame_or_none
    (requests_get : string -> Exception + Response)
    (read_file : string -> Exception + GeoDataFrame) (url : string) :
  (exists df,
      load_geojson_from_github requests_get read_file url
      = (Done (Some df), nil)
      /\ exists r, requests_get url = inr r
                   /\ raise_for_status url r = inr tt
                   /\ read_file (content r) = inr df)
  \/ (exists e,
        load_geojson_from_github requests_get read_file url
        = (Done None, load_errors url e)
        /\ (requests_get url = inl e
            \/ (exists r, requests_get url = inr r
                          /\ raise_for_status url r = inl e)
            \/ (exists r, requests_get url = inr r
                          /\ raise_for_status url r = inr tt
                          /\ read_file (content r) = inl e))).
Proof.
  unfold load_geojson_from_github, fetch.
  destruct (requests_get url) as [e|r] eqn:Hget.
  - right. exists e. split; [done|]. by left.
  - destruct (raise_for_status url r) as [e|[]] eqn:Hst.
    + right. exists e. split; [done|]. right; left. by exists r.
    + destruct (read_file (content r)) as [e|df] eqn:Hrd.
      * right. exists e. split; [done|]. right; right. by exists r.
      * left. exists df. split; [done|]. by exists r.
Qed.

(** C6 as stated fails: a host that is down and a payload that is not
    GeoJSON both come back to the caller as [None]. *)
Lemma C6_failures_not_told_apart :
  ~ exists classify, tells_failures_apart classify.
Proof.
  intros [classify H].
  pose proof (H Sample.get_down Sample.read_bad BAIRROS_URL
                {| kind := ConnectionError; str := "Max retries exceeded" |})
    as [Hfetch _].
  pose proof (H Sample.get_ok Sample.read_bad BAIRROS_URL
                {| kind := DataSourceError;
                   str := "not recognized as a supported file format" |})
    as [_ [_ Hparse]].
  specialize (Hfetch eq_refl).
  specialize (Hparse _ eq_refl eq_refl eq_refl).
  cbn in Hfetch, Hparse. congruence.
Qed.

Section Styling.

Lemma fold_min_same (v : Z) (l : list Z) :
  Forall (eq v) l -> List.fold_left Z.min l v = v.
Proof.
  induction 1 as [|c l <- _ IH]; [done|]. cbn. by rewrite Z.min_id.
Qed.

Lemma fold_max_same (v : Z) (l : list Z) :
  Forall (eq v) l -> List.fold_left Z.max l v = v.
Proof.
  induction 1 as [|c l <- _ IH]; [done|]. cbn. by rewrite Z.max_id.
Qed.

Lemma int_cells_same (b : GeoDataFrame) (v : Z) :
  (forall f, f ∈ features b ->
             properties f !! "sistemas_bancarios" = Some (VInt v)) ->
  int_cells (column b "sistemas_bancarios")
  = List.map (fun _ => v) (features b).
Proof.
  unfold column, int_cells. induction (features b) as [|f l IH]; intros H.
  - done.
  - cbn. rewrite (H f) by apply list_elem_of_here. cbn. f_equal.
    apply IH. intros g Hg. apply H. by apply list_elem_of_further.
Qed.

Lemma min_max_same (b : GeoDataFrame) (v : Z) :
  features b <> nil ->
  (forall f, f ∈ features b ->
             properties f !! "sistemas_bancarios" = Some (VInt v)) ->
  min_val b = of_int v /\ max_val b = of_int v.
Proof.
  intros Hne Hall. unfold min_val, max_val.
  rewrite (int_cells_same b v Hall).
  destruct (features b) as [|f l]; [done|]. cbn.
  assert (Hsame : Forall (eq v) (List.map (fun _ : Feature => v) l)).
  { clear. induction l; cbn; constructor; auto. }
  by rewrite (fold_min_same v _ Hsame), (fold_max_same v _ Hsame).
Qed.

(** The first entry of the index when both ends of the scale are [v]. *)
Lemma flat_index_first (v : Z) :
  Qle_bool (inject_Z v)
    (inject_Z v
     + (inject_Z v - inject_Z v) * inject_Z (Z.of_nat 0) * 1
       / inject_Z (Z.of_nat 3 - 1)) = true.
Proof.
  apply Qle_bool_iff.
  assert (E : (inject_Z v
               + (inject_Z v - inject_Z v) * inject_Z (Z.of_nat 0) * 1
                 / inject_Z (Z.of_nat 3 - 1) == inject_Z v)%Q).
  { field. discriminate. }
  rewrite E. apply Qle_refl.
Qed.

Lemma py_get_first {A} (a : A) (l : list A) : py_get (a :: l) 0 = Some a.
Proof.
  unfold py_get. cbn [length].
  replace (0 <? Z.of_nat (S (length l))) with true
    by (symmetry; apply Z.ltb_lt; lia).
  reflexivity.
Qed.

(** A value not above the first index entry gets the first colour. *)
Lemma rgba_at_first (cmap : LinearColormap) (v first : num)
    (rest : list num) (c : rgba) (cs : list rgba) :
  cm_index cmap = first :: rest ->
  cm_colors cmap = c :: cs ->
  num_le v first = true ->
  rgba_floats_tuple cmap v = inr c.
Proof.
  intros Hi Hc Hle. unfold rgba_floats_tuple, get_or_raise.
  by rewrite Hi, Hc, !py_get_first, Hle.
Qed.

(** On a flat scale the colormap is built, no division takes place and
    the value [v] gets the first colour. *)
Lemma flat_colormap (b : GeoDataFrame) (v : Z) :
  min_val b = of_int v -> max_val b = of_int v ->
  exists cmap,
    colormap b = inr cmap /\ rgba_hex_str cmap (of_int v) = inr "#fef9efff".
Proof.
  intros Hmin Hmax. unfold colormap, new_LinearColormap.
  rewrite Hmin, Hmax.
  set (cols := parse_all _). vm_compute in cols. subst cols.
  cbn [length Nat.ltb Nat.leb].
  eexists. split; [reflexivity|].
  unfold rgba_hex_str, rgba_bytes_tuple.
  erewrite rgba_at_first; cycle 1.
  - cbn [cm_index seq List.map]. reflexivity.
  - cbn [cm_colors]. reflexivity.
  - apply flat_index_first.
  - reflexivity.
Qed.

End Styling.

(** C7.  When every polygon holds the same count [v], the scale runs from
    [v] to [v], the colormap is built, and the style function gives every
    polygon the same fill colour, the first colour of the palette; no
    division takes place and nothing is raised. *)
Theorem C7_flat_scale_single_colour (b : GeoDataFrame) (v : Z) :
  features b <> nil ->
  (forall f, f ∈ features b ->
             properties f !! "sistemas_bancarios" = Some (VInt v)) ->
  exists cmap,
    colormap b = inr cmap
    /\ mapM (style_function cmap) (features b)
       = inr (List.map (fun _ => PALE) (features b)).
Proof.
  intros Hne Hall.
  destruct (min_max_same b v Hne Hall) as [Hmin Hmax].
  destruct (flat_colormap b v Hmin Hmax) as [cmap [Hcm Hcall]].
  exists cmap. split; [exact Hcm|].
  clear Hne Hmin Hmax Hcm.
  induction (features b) as [|f l IH]; [done|].
  cbn [mapM List.map]. rewrite IH.
  - unfold style_function. rewrite (Hall f) by apply list_elem_of_here.
    simpl. by rewrite Hcall.
  - intros g Hg. apply Hall. by apply list_elem_of_further.
Qed.

Section Reprojection.
Variable transform : CRS -> CRS -> Q * Q -> Q * Q.

Lemma to_crs_tag (df df' : GeoDataFrame) (epsg : Z) :
  to_crs transform df epsg = inr df' -> crs df' = Some (EPSG epsg).
Proof.
  unfold to_crs. destruct (crs df) as [c|] eqn:Hc; [|discriminate].
  destruct (decide (c = EPSG epsg)) as [->|_]; intros [= <-]; [exact Hc|done].
Qed.

(** A frame already in the target system comes back as it is. *)
Lemma to_crs_same (df : GeoDataFrame) (epsg : Z) :
  crs df = Some (EPSG epsg) -> to_crs transform df epsg = inr df.
Proof.
  intros H. unfold to_crs. rewrite H.
  by destruct (decide (EPSG epsg = EPSG epsg)).
Qed.

(** A frame without a reference system cannot be reprojected. *)
Lemma to_crs_naive (df : GeoDataFrame) (epsg : Z) :
  crs df = None -> exists e, to_crs transform df epsg = inl e.
Proof. intros H. unfold to_crs. rewrite H. by eexists. Qed.
End Reprojection.

Section Monad.
Lemma bind_Done {A B} (c : Script A) (k : A -> Script B) (r : B)
    (es : list Element) :
  bind c k = (Done r, es) ->
  exists a es1 es2,
    c = (Done a, es1) /\ k a = (Done r, es2) /\ es = (es1 ++ es2)%list.
Proof.
  unfold bind. destruct c as [[a| |e] es1]; [|discriminate..].
  destruct (k a) as [r' es2] eqn:Hk. intros [= -> <-].
  by exists a, es1, es2.
Qed.

Lemma try_Done {A} (r : Exception + A) (a : A) (es : list Element) :
  try_ r = (Done a, es) -> r = inr a /\ es = nil.
Proof. destruct r; cbn; [discriminate|]. by intros [= -> <-]. Qed.

Lemma emit_Done (e : Element) (u : unit) (es : list Element) :
  emit e = (Done u, es) -> es = e :: nil.
Proof. by intros [= <-]. Qed.
End Monad.

(** A processing step that gets past the two reprojections joined the
    two reprojected frames. *)
Lemma process_Done
    (contains : Geometry -> Geometry -> bool)
    (transform : CRS -> CRS -> Q * Q -> Q * Q)
    (b s b' s' : GeoDataFrame) (es : list Element) :
  process contains transform b s = (Done (b', s'), es) ->
  exists b1,
    to_crs transform b 4326 = inr b1
    /\ to_crs transform s 4326 = inr s'
    /\ b' = aggregate contains b1 s'.
Proof.
  unfold process. intros H.
  apply bind_Done in H as (u & e0 & es1 & _ & H & _).
  apply bind_Done in H as (b1 & e1 & es2 & Hb & H & _).
  apply bind_Done in H as (s1 & e2 & es3 & Hs & H & _).
  apply try_Done in Hb as [Hb _]. apply try_Done in Hs as [Hs _].
  unfold ret in H. injection H as E1 E2 _. subst b' s'.
  by exists b1.
Qed.

(** C8, as the code has it.  When the processing step gets past the two
    reprojections, both frames carry EPSG:4326, and the join is evaluated
    on those two frames.  No coordinate is checked against a range: a
    frame that came in EPSG:4326 goes into the join as it came. *)
Theorem C8_frames_share_reference_system
    (contains : Geometry -> Geometry -> bool)
    (transform : CRS -> CRS -> Q * Q -> Q * Q)
    (b s b' s' : GeoDataFrame) (es : list Element) :
  process contains transform b s = (Done (b', s'), es) ->
  exists b1,
    to_crs transform b 4326 = inr b1
    /\ to_crs transform s 4326 = inr s'
    /\ b' = aggregate contains b1 s'
    /\ crs b1 = Some (EPSG 4326)
    /\ crs s' = Some (EPSG 4326)
    /\ crs b' = crs s'
    /\ (crs b = Some (EPSG 4326) -> b1 = b)
    /\ (crs s = Some (EPSG 4326) -> s' = s).
Proof.
  intros H. apply process_Done in H as (b1 & Hb & Hs & ->).
  exists b1. repeat split; try done.
  - eapply to_crs_tag, Hb.
  - eapply to_crs_tag, Hs.
  - cbn. by rewrite (to_crs_tag _ _ _ _ Hb), (to_crs_tag _ _ _ _ Hs).
  - intros Hc. rewrite (to_crs_same transform b 4326 Hc) in Hb. congruence.
  - intros Hc. rewrite (to_crs_same transform s 4326 Hc) in Hs. congruence.
Qed.

(** C8 as stated fails on the coordinate bounds: a frame that is already
    in EPSG:4326 passes through unchanged, whatever its coordinates. *)
Lemma C8_coordinates_not_bounded :
  ~ (forall (transform : CRS -> CRS -> Q * Q -> Q * Q)
            (df df' : GeoDataFrame),
        to_crs transform df 4326 = inr df' -> frame_in_bounds df').
Proof.
  intros H.
  specialize (H Sample.no_transform Sample.fora Sample.fora eq_refl
                (Point (Some (200, 100)%Q)) (200, 100)%Q).
  destruct H as [[_ Hlon] _].
  - cbn. apply list_elem_of_here.
  - cbn. apply list_elem_of_here.
  - cbn in Hlon. by apply Qle_bool_iff in Hlon.
Qed.

Section Cycle.
Variable contains : Geometry -> Geometry -> bool.
Variable transform : CRS -> CRS -> Q * Q -> Q * Q.
Variable requests_get : string -> Exception + Response.
Variable read_file : string -> Exception + GeoDataFrame.
Variable os : platform.

Lemma load_Done (url : string) (o : option GeoDataFrame)
    (es : list Element) :
  load_geojson_from_github requests_get read_file url = (Done o, es) ->
  match o with
  | Some df => fetch requests_get read_file url = inr df
  | None => exists e, fetch requests_get read_file url = inl e
  end.
Proof.
  unfold load_geojson_from_github.
  destruct (fetch requests_get read_file url) as [e|df].
  - cbn. intros [= <- _]. by exists e.
  - cbn. by intros [= <- _].
Qed.

(** A cycle that runs to its end went through every stage, and each
    later stage was handed the frame the aggregation produced. *)
Lemma app_Done (ses : Session) (g : Globals) (es : list Element) :
  app contains transform requests_get read_file os ses = (Done g, es) ->
  exists b0 s0 es1 es2 es3,
    fetch requests_get read_file BAIRROS_URL = inr b0
    /\ fetch requests_get read_file SB_URL = inr s0
    /\ process contains transform b0 s0
       = (Done (bairros_data g, df_sb g), es1)
    /\ build_map (tile_layer g) (show_heatmap g) (show_clusters g)
         (bairros_data g) (df_sb g)
       = (Done (m g, locations g), es2)
    /\ export os (bairros_data g) = (Done (csv g), es3).
Proof.
  unfold app. intros H.
  do 4 (apply bind_Done in H as (? & ? & ? & _ & H & _)).
  apply bind_Done in H as (ob & eb & ? & Hb & H & _).
  apply bind_Done in H as (osb & esb & ? & Hs & H & _).
  apply load_Done in Hb. apply load_Done in Hs.
  destruct ob as [b0|]; [|discriminate].
  destruct osb as [s0|]; [|discriminate].
  apply bind_Done in H as ([b1 s1] & es1 & ? & Hp & H & _).
  apply bind_Done in H as ([[tile heat] clus] & ecfg & ? & _ & H & _).
  apply bind_Done in H as ([mp locs] & es2 & ? & Hm & H & _).
  apply bind_Done in H as (data & es3 & ? & He & H & _).
  unfold ret in H. injection H as <- _. cbn.
  by exists b0, s0, es1, es2, es3.
Qed.

Lemma combine_seq_lookup {A} (l : list A) (s i : nat) (a : A) :
  l !! i = Some a ->
  combine (seq s (length l)) l !! i = Some ((s + i)%nat, a).
Proof.
  revert s i. induction l as [|c l IH]; intros s i Hi; [done|].
  destruct i as [|i].
  - cbn in *. injection Hi as ->. by rewrite Nat.add_0_r.
  - replace (s + S i)%nat with (S s + i)%nat by lia.
    exact (IH (S s) i Hi).
Qed.

(** The aggregation writes one column and nothing else. *)
Lemma aggregate_frame (b s : GeoDataFrame) (i : nat) (f : Feature) :
  features b !! i = Some f ->
  exists f',
    features (aggregate contains b s) !! i = Some f'
    /\ geometry f' = geometry f
    /\ forall k, k <> "sistemas_bancarios" ->
                 properties f' !! k = properties f !! k.
Proof.
  intros Hf. unfold aggregate, set_column. cbn [features].
  eexists. split; [|split].
  - rewrite list_lookup_fmap. unfold index.
    rewrite (combine_seq_lookup (features b) 0 i f Hf). reflexivity.
  - reflexivity.
  - intros k Hk. cbn. by rewrite lookup_insert_ne.
Qed.
End Cycle.

Section Rendering.

Lemma is_marker_point_yx (g : option Geometry) :
  if is_marker g
  then exists l, yx g = inr l /\ point_yx g = Some l
  else point_yx g = None.
Proof.
  destruct g as [[[[a c]|]|k cs]|]; cbn; try done.
  - by exists (c, a).
  - destruct k, cs; reflexivity.
Qed.

(** The comprehension never raises: it keeps the locations of the
    non-null, non-empty points, in frame order, and drops the rest. *)
Lemma marker_locations_total (s : GeoDataFrame) :
  marker_locations s = inr (omap point_yx (geometries s)).
Proof.
  unfold marker_locations. induction (geometries s) as [|g gs IH]; [done|].
  pose proof (is_marker_point_yx g) as Hg.
  cbn [List.filter omap list_omap]. destruct (is_marker g).
  - destruct Hg as [l [Hyx Hp]]. cbn [mapM]. by rewrite Hyx, IH, Hp.
  - by rewrite Hg.
Qed.

(** What a finished map assembly went through and what it built. *)
Lemma build_map_Done (tile : string) (heat clus : bool)
    (b s : GeoDataFrame) (mp : Map) (locs : list Location)
    (es : list Element) :
  build_map tile heat clus b s = (Done (mp, locs), es) ->
  exists cmap styles,
    colormap b = inr cmap
    /\ mapM (style_function cmap) (features b) = inr styles
    /\ marker_locations s = inr locs
    /\ children mp = layers heat clus b cmap styles locs
    /\ es = StFolium mp 1200 700 :: nil.
Proof.
  unfold build_map. intros H.
  apply bind_Done in H as (cmap & e1 & ? & Hc & H & ->).
  apply bind_Done in H as (styles & e2 & ? & Hs & H & ->).
  apply bind_Done in H as (u & e3 & ? & Ht & H & ->).
  apply bind_Done in H as (ls & e4 & ? & Hl & H & ->).
  apply bind_Done in H as (u' & e5 & ? & He & H & ->).
  apply try_Done in Hc as [Hc ->]. apply try_Done in Hs as [Hs ->].
  apply try_Done in Ht as [Ht ->]. apply try_Done in Hl as [Hl ->].
  apply emit_Done in He as ->.
  unfold ret in H. injection H as <- <- <-.
  exists cmap, styles. repeat split; try done.
  unfold layers. by destruct clus, (heat && negb (is_nil ls)).
Qed.

Lemma export_Done (os : platform) (b : GeoDataFrame)
    (data : list Byte.byte) (es : list Element) :
  export os b = (Done data, es) ->
  exists df,
    select_columns b ("NOME" :: "sistemas_bancarios" :: nil) = inr df
    /\ data = convert_df os df.
Proof.
  unfold export. intros H.
  do 2 (apply bind_Done in H as (? & ? & ? & _ & H & _)).
  apply bind_Done in H as (df & e1 & ? & Hd & H & _).
  apply bind_Done in H as (u & e2 & ? & _ & H & _).
  apply try_Done in Hd as [Hd _].
  unfold ret in H. injection H as <-. by exists df.
Qed.

End Rendering.

(** C9.  The aggregation sets the column [sistemas_bancarios] and leaves
    the geometry, every other attribute, the number of rows and the
    reference system of the polygon frame as they were.  In a cycle that
    runs to its end the frame is never rebound afterwards: the map layer
    and the CSV export both read the frame the aggregation produced. *)
Theorem C9_only_the_count_column_is_written
    (contains : Geometry -> Geometry -> bool)
    (transform : CRS -> CRS -> Q * Q -> Q * Q)
    (requests_get : string -> Exception + Response)
    (read_file : string -> Exception + GeoDataFrame)
    (os : platform) :
  (forall b s i f,
      features b !! i = Some f ->
      exists f',
        features (aggregate contains b s) !! i = Some f'
        /\ geometry f' = geometry f
        /\ forall k, k <> "sistemas_bancarios" ->
                     properties f' !! k = properties f !! k)
  /\ (forall b s,
         length (features (aggregate contains b s)) = length (features b)
         /\ crs (aggregate contains b s) = crs b)
  /\ (forall ses g es,
         app contains transform requests_get read_file os ses = (Done g, es) ->
         (exists b1, bairros_data g = aggregate contains b1 (df_sb g))
         /\ (exists styles,
                GeoJson (bairros_data g) "Sistemas Bancários por Bairro"
                  styles tooltip ∈ children (m g))
         /\ (exists df,
                select_columns (bairros_data g)
                  ("NOME" :: "sistemas_bancarios" :: nil) = inr df
                /\ csv g = convert_df os df)).
Proof.
  split; [|split].
  - intros b s i f. apply aggregate_frame.
  - intros b s. split; [|done].
    unfold aggregate, set_column, index. cbn [features].
    rewrite length_map, length_combine, length_seq. lia.
  - intros ses g es H.
    apply app_Done in H as (b0 & s0 & es1 & es2 & es3 & _ & _ & Hp & Hm & He).
    apply process_Done in Hp as (b1 & _ & _ & Hb).
    apply build_map_Done in Hm as (cmap & styles & _ & _ & _ & Hch & _).
    split; [by exists b1|]. split; [|by apply export_Done in He].
    exists styles. rewrite Hch. unfold layers. apply list_elem_of_here.
Qed.

(** C10.  The marker layer and the heat-map layer are built from one
    list: the locations of the geometries of the point frame that are
    non-null, of type Point and not empty.  A heat map is on the map only
    when that list is not empty. *)
Theorem C10_layers_use_filtered_points
    (tile : string) (heat clus : bool) (b s : GeoDataFrame)
    (mp : Map) (locs : list Location) (es : list Element) :
  build_map tile heat clus b s = (Done (mp, locs), es) ->
  locs = omap point_yx (geometries s)
  /\ (forall n d, MarkerCluster n d ∈ children mp -> d = locs)
  /\ (forall d n, HeatMap d n ∈ children mp -> d = locs /\ locs <> nil)
  /\ (locs = nil -> forall l, l ∈ children mp -> is_HeatMap l = false).
Proof.
  intros H.
  apply build_map_Done in H as (cmap & styles & _ & _ & Hl & Hch & _).
  rewrite marker_locations_total in Hl. injection Hl as Hl.
  rewrite Hch. unfold layers. clear Hch. split; [done|].
  split; [|split].
  - intros n d Hin. destruct clus, (heat && negb (is_nil locs));
      cbn in Hin;
      repeat (apply elem_of_cons in Hin as [Hin|Hin]; [try discriminate|]);
      try (by apply elem_of_nil in Hin); by injection Hin.
  - intros d n Hin. destruct locs as [|l0 ls].
    + rewrite andb_false_r in Hin. destruct clus; cbn in Hin;
        repeat (apply elem_of_cons in Hin as [Hin|Hin]; [discriminate|]);
        by apply elem_of_nil in Hin.
    + split; [|done]. destruct clus, heat; cbn in Hin;
        repeat (apply elem_of_cons in Hin as [Hin|Hin]; [try discriminate|]);
        try (by apply elem_of_nil in Hin); by injection Hin.
  - intros -> l Hin. rewrite andb_false_r in Hin. destruct clus; cbn in Hin;
      repeat (apply elem_of_cons in Hin as [->|Hin]; [done|]);
      by apply elem_of_nil in Hin.
Qed.

Section Encoder.
Variable os : platform.

(** The characters that make the writer quote a field: the comma, the
    double quote and the line feed on both platforms, the carriage
    return on Windows only. *)
Lemma special_linesep (c : ascii) :
  special (linesep os) c
  = (Ascii.eqb c sep || Ascii.eqb c quotechar || Ascii.eqb c LF
     || match os with Nt => Ascii.eqb c CR | Posix => false end).
Proof.
  unfold special. destruct os; cbn [linesep mem_ascii];
    destruct (Ascii.eqb c sep), (Ascii.eqb c quotechar),
      (Ascii.eqb c CR), (Ascii.eqb c LF); reflexivity.
Qed.

Lemma any_char_ext (p q : ascii -> bool) (s : string) :
  (forall c, p c = q c) -> any_char p s = any_char q s.
Proof. intros H. induction s as [|c s IH]; cbn; [done|]. by rewrite H, IH. Qed.

Lemma any_char_none (p q : ascii -> bool) (s : string) :
  (forall c, p c = true -> q c = true) ->
  any_char q s = false -> any_char p s = false.
Proof.
  intros H. induction s as [|c s IH]; cbn; [done|].
  intros Hq. apply orb_false_iff in Hq as [Hc Hs].
  rewrite (IH Hs), orb_false_r.
  destruct (p c) eqn:Hp; [|done]. apply H in Hp. congruence.
Qed.

(** A name without comma, quote, carriage return or line feed is
    written as it is. *)
Lemma write_field_plain (s : string) :
  plain_name s = true -> write_field (linesep os) s = s.
Proof.
  unfold plain_name, write_field. intros H. apply negb_true_iff in H.
  erewrite (any_char_none (special (linesep os))); [done| |exact H].
  intros c. rewrite special_linesep.
  destruct os, (Ascii.eqb c sep), (Ascii.eqb c quotechar),
    (Ascii.eqb c CR), (Ascii.eqb c LF); done.
Qed.

Lemma digits_plain (d : Decimal.uint) :
  plain_name (NilEmpty.string_of_uint d) = true.
Proof.
  unfold plain_name. induction d; cbn in *; try done.
Qed.

(** The decimal form of an integer is never quoted. *)
Lemma str_int_plain (z : Z) : plain_name (str_int z) = true.
Proof.
  unfold str_int, NilZero.string_of_int, NilZero.string_of_uint.
  destruct (Z.to_int z) as [d|d]; destruct d; try apply digits_plain;
    try reflexivity;
    unfold plain_name; cbn; apply (digits_plain d).
Qed.

Lemma append_assoc (a b c : string) : (a ++ b) ++ c = a ++ b ++ c.
Proof.
  induction a as [|x a IH]; [reflexivity|].
  change (String x ((a ++ b) ++ c) = String x (a ++ b ++ c)).
  by rewrite IH.
Qed.

Lemma writerow_pair (a b : string) :
  writerow (linesep os) (a :: b :: nil)
  = write_field (linesep os) a ++ ","
    ++ write_field (linesep os) b ++ linesep os.
Proof.
  unfold writerow. destruct a as [|x a]; cbn [List.map str_join];
    rewrite ?append_assoc; reflexivity.
Qed.

(** The encoder on name/count pairs: the header, then one row per pair
    in order; the name goes through the writer's quoting rule and the
    count is written in decimal. *)
Lemma convert_df_pairs (l : list (string * Z)) :
  convert_df os (frame_of_pairs l)
  = encode_utf8
      ("NOME,sistemas_bancarios" ++ linesep os
       ++ String.concat ""
            (List.map
               (fun nc => write_field (linesep os) (fst nc) ++ ","
                          ++ str_int (snd nc) ++ linesep os) l)).
Proof.
  unfold convert_df, to_csv, frame_of_pairs. cbn [header rows].
  rewrite List.map_map.
  rewrite (List.map_ext _
             (fun nc => write_field (linesep os) (fst nc) ++ ","
                        ++ str_int (snd nc) ++ linesep os)).
  - rewrite writerow_pair, !write_field_plain by reflexivity.
    rewrite !append_assoc. reflexivity.
  - intros [n c]. cbn [List.map cell_str fst snd].
    by rewrite writerow_pair, (write_field_plain (str_int c))
      by apply str_int_plain.
Qed.

(** ** The reader on what the writer wrote *)
















End Encoder.


(** * The theorems at work on the sample world *)

(** The line string inside Centro is counted with the two points; Batel,
    which holds nothing, is counted 1. *)
Example sample_counts :
  column (aggregate Sample.box_contains Sample.bairros Sample.agencias)
    "sistemas_bancarios" = VInt 3 :: VInt 1 :: nil
  /\ List.map (fun p => points_inside Sample.box_contains p Sample.agencias)
       (geometries Sample.bairros) = 2%nat :: 0%nat :: nil.
Proof. split; reflexivity. Qed.

Lemma sample_disjoint :
  disjoint_polygons Sample.box_contains Sample.bairros Sample.agencias.
Proof.
  intros i j p q g Hi Hj Hg Hp Hq.
  destruct i as [|[|i]]; destruct j as [|[|j]]; try reflexivity;
    try discriminate Hi; try discriminate Hj;
    injection Hi as <-; injection Hj as <-;
    cbn in Hg;
    repeat (apply elem_of_cons in Hg as [->|Hg];
            [vm_compute in Hp; vm_compute in Hq; discriminate|]);
    by apply elem_of_nil in Hg.
Qed.

Lemma C3_counts_nonnegative_and_sum_witness :
  disjoint_polygons Sample.box_contains Sample.bairros Sample.agencias
  /\ sum_Z (counted Sample.box_contains Sample.bairros Sample.agencias)
     = Z.of_nat (covered Sample.box_contains Sample.bairros Sample.agencias)
       + Z.of_nat (barren Sample.box_contains Sample.bairros Sample.agencias).
Proof.
  split; [exact sample_disjoint|].
  exact (proj2 (C3_counts_nonnegative_and_sum Sample.box_contains
                  Sample.bairros Sample.agencias) sample_disjoint).
Defined.

(** With one neighbourhood and no bank the counts add up to 1, and no
    point lies in any polygon. *)
Example sum_without_points :
  sum_Z (counted Sample.box_contains Sample.so_batel Sample.sem_agencias) = 1
  /\ covered Sample.box_contains Sample.so_batel Sample.sem_agencias = 0%nat.
Proof. split; reflexivity. Qed.

Lemma C4_load_failure_halts_cycle_witness :
  let cycle := app Sample.box_contains Sample.no_transform Sample.get_404_sb
                 Sample.read_ok Posix Sample.untouched in
  fst cycle = Stopped
  /\ (Error ("URL tentada: " ++ SB_URL) ∈ snd cycle)
  /\ (Spinner PROCESSING ∉ snd cycle)
  /\ forallb (fun el => negb (shows_map_or_csv el)) (snd cycle) = true.
Proof.
  apply (C4_load_failure_halts_cycle Sample.box_contains Sample.no_transform
           Sample.get_404_sb Sample.read_ok Posix Sample.untouched SB_URL
           {| kind := HTTPError;
              str := "404 Client Error: Not Found for url: " ++ SB_URL |}).
  - right. reflexivity.
  - vm_compute. reflexivity.
Defined.

(** The example of the specification, byte for byte. *)
Example csv_centro_batel :
  convert_df Posix (frame_of_pairs (("Centro", 5) :: ("Batel", 0) :: nil))
  = encode_utf8 "NOME,sistemas_bancarios
Centro,5
Batel,0
".
Proof. reflexivity. Qed.

Lemma C7_flat_scale_single_colour_witness :
  exists cmap,
    colormap Sample.iguais = inr cmap
    /\ mapM (style_function cmap) (features Sample.iguais)
       = inr (List.map (fun _ => PALE) (features Sample.iguais)).
Proof.
  apply (C7_flat_scale_single_colour Sample.iguais 3).
  - discriminate.
  - intros f Hf. cbn in Hf.
    repeat (apply elem_of_cons in Hf as [->|Hf]; [reflexivity|]).
    by apply elem_of_nil in Hf.
Defined.

Lemma C8_frames_share_reference_system_witness :
  exists b' s' es,
    process Sample.box_contains Sample.no_transform Sample.bairros
      Sample.agencias = (Done (b', s'), es)
    /\ crs b' = Some (EPSG 4326) /\ crs s' = Some (EPSG 4326).
Proof.
  destruct (process Sample.box_contains Sample.no_transform Sample.bairros
              Sample.agencias) as [[[b' s']| |e] es] eqn:E.
  - exists b', s', es. split; [reflexivity|].
    destruct (C8_frames_share_reference_system _ _ _ _ _ _ _ E)
      as (b1 & _ & _ & _ & _ & Hs & Hb & _).
    split; [by rewrite Hb|exact Hs].
  - vm_compute in E. discriminate.
  - vm_compute in E. discriminate.
Defined.

Lemma C9_only_the_count_column_is_written_witness :
  exists g es,
    app Sample.box_contains Sample.no_transform Sample.get_ok Sample.read_ok
      Posix Sample.untouched = (Done g, es)
    /\ (exists b1, bairros_data g = aggregate Sample.box_contains b1 (df_sb g))
    /\ (exists df,
           select_columns (bairros_data g)
             ("NOME" :: "sistemas_bancarios" :: nil) = inr df
           /\ csv g = convert_df Posix df).
Proof.
  destruct (app Sample.box_contains Sample.no_transform Sample.get_ok
              Sample.read_ok Posix Sample.untouched) as [[g| |e] es] eqn:E.
  - exists g, es. split; [reflexivity|].
    destruct (proj2 (proj2 (C9_only_the_count_column_is_written
                              Sample.box_contains Sample.no_transform
                              Sample.get_ok Sample.read_ok Posix))
                Sample.untouched g es E) as (Hb & _ & Hc).
    by split.
  - vm_compute in E. discriminate.
  - vm_compute in E. discriminate.
Defined.

Lemma C10_layers_use_filtered_points_witness :
  exists mp locs es,
    build_map "OpenStreetMap" true true Sample.iguais Sample.agencias
    = (Done (mp, locs), es)
    /\ locs = omap point_yx (geometries Sample.agencias)
    /\ (forall d n, HeatMap d n ∈ children mp -> d = locs /\ locs <> nil).
Proof.
  destruct (build_map "OpenStreetMap" true true Sample.iguais Sample.agencias)
    as [[[mp locs]| |e] es] eqn:E.
  - exists mp, locs, es. split; [reflexivity|].
    destruct (C10_layers_use_filtered_points _ _ _ _ _ _ _ _ E)
      as (Hl & _ & Hh & _).
    by split.
  - vm_compute in E. discriminate.
  - vm_compute in E. discriminate.
Defined.

(** The points frame of the sample gives two markers; the empty point,
    the null geometry and the line string are left out. *)
Example sample_markers :
  marker_locations Sample.agencias = inr ((1, 1)%Q :: (3, 2)%Q :: nil).
Proof. reflexivity. Qed.

(** What the encoder does with the comma: the name goes between double
    quotes. *)
Example csv_quoted_name :
  convert_df Posix (frame_of_pairs (("Alto da Gloria, Norte", 5) :: nil))
  = encode_utf8
      ("NOME,sistemas_bancarios" ++ linesep Posix
       ++ quoted "Alto da Gloria, Norte" ++ ",5" ++ linesep Posix).
Proof. reflexivity. Qed.

(** Read back, the quoted name is the name that was given, and so is a
    name that holds double quotes or a line break. *)
Example csv_quoted_name_read :
  read_table (linesep Posix)
    (convert_df Posix (frame_of_pairs (("Alto da Gloria, Norte", 5) :: nil)))
  = Some ("NOME" :: "sistemas_bancarios" :: nil,
          ("Alto da Gloria, Norte", 5) :: nil).
Proof. reflexivity. Qed.

Example csv_line_break_read :
  let name := String quotechar
                ("Alto" ++ String quotechar (String CR (String LF "Norte"))) in
  read_table (linesep Nt)
    (convert_df Nt (frame_of_pairs ((name, -3) :: ("", 0) :: nil)))
  = Some ("NOME" :: "sistemas_bancarios" :: nil,
          (name, -3) :: ("", 0) :: nil).
Proof. reflexivity. Qed.

(** The reader does not mend a text: had the name with the comma been
    written without quotes, its row would hold three fields and the text
    would not read as a table of names and counts. *)
Example csv_unquoted_comma_misread :
  read_csv (linesep Posix) "NOME,sistemas_bancarios
Alto da Gloria, Norte,5
"
  = ("NOME" :: "sistemas_bancarios" :: nil)
    :: ("Alto da Gloria" :: " Norte" :: "5" :: nil) :: nil
  /\ read_table (linesep Posix) (encode_utf8 "NOME,sistemas_bancarios
Alto da Gloria, Norte,5
") = None.
Proof. split; reflexivity. Qed.

(** * Further properties of the script *)

(** ** The aggregation *)

Section MoreAggregation.
Variable contains : Geometry -> Geometry -> bool.

Lemma counts_lookup_ge (b s : GeoDataFrame) (i : nat) :
  (length (features b) <= i)%nat -> counts contains b s !! i = None.
Proof.
  intros Hi. unfold counts, join, sjoin_left, index.
  rewrite groupby_size_lookup.
  replace (length (features b)) with (length (geometries b))
    by (unfold geometries; apply length_map).
  rewrite join_labels_from. destruct (decide (0 <= i)%nat); [|lia].
  rewrite Nat.sub_0_r.
  rewrite (lookup_ge_None_2 (geometries b) i)
    by (unfold geometries; rewrite length_map; lia).
  by destruct (decide _).
Qed.

Lemma geometries_lookup (b : GeoDataFrame) (i : nat) :
  (i < length (features b))%nat -> is_Some (geometries b !! i).
Proof.
  intros Hi. apply lookup_lt_is_Some. unfold geometries.
  by rewrite length_map.
Qed.

(** The series depends on the polygon frame through its geometries only. *)
Lemma sistemas_bancarios_geometries (b b' s : GeoDataFrame) :
  geometries b = geometries b' ->
  sistemas_bancarios contains b s = sistemas_bancarios contains b' s.
Proof.
  intros Hg.
  assert (Hlen : length (features b) = length (features b')).
  { unfold geometries in Hg. apply (f_equal length) in Hg.
    by rewrite !length_map in Hg. }
  unfold sistemas_bancarios, reindex, index. rewrite <- Hlen.
  apply List.map_ext_in. intros k Hk. apply in_seq in Hk.
  destruct (geometries_lookup b k ltac:(lia)) as [p Hp].
  rewrite (counts_lookup contains b s k p Hp).
  rewrite Hg in Hp. by rewrite (counts_lookup contains b' s k p Hp).
Qed.

Lemma set_column_lookup (df : GeoDataFrame) (name : string) (S : Series)
    (i : nat) :
  features (set_column df name S) !! i
  = (fun f => {| properties :=
                   <[name := from_option VInt VNone (series_at S i)]>
                     (properties f);
                 geometry := geometry f |}) <$> features df !! i.
Proof.
  unfold set_column, index. cbn [features]. rewrite list_lookup_fmap.
  destruct (features df !! i) as [f|] eqn:Hf.
  - by rewrite (combine_seq_lookup (features df) 0 i f Hf).
  - apply lookup_ge_None in Hf.
    rewrite (lookup_ge_None_2 (combine _ _) i); [done|].
    rewrite length_combine, length_seq. lia.
Qed.

Lemma geometries_set_column (df : GeoDataFrame) (name : string) (S : Series) :
  geometries (set_column df name S) = geometries df.
Proof.
  apply list_eq. intros i. unfold geometries.
  rewrite !list_lookup_fmap, set_column_lookup.
  by destruct (features df !! i).
Qed.

Lemma gdf_eq (d e : GeoDataFrame) :
  crs d = crs e -> columns d = columns e -> features d = features e -> d = e.
Proof. destruct d, e. cbn. by intros -> -> ->. Qed.

End MoreAggregation.

(** X1.  Running the aggregation again on the frame it produced, with the
    same points, changes nothing: the column is overwritten with the same
    counts and no second column appears. *)
Theorem aggregate_twice
    (contains : Geometry -> Geometry -> bool) (b s : GeoDataFrame) :
  aggregate contains (aggregate contains b s) s = aggregate contains b s.
Proof.
  unfold aggregate at 1.
  rewrite (sistemas_bancarios_geometries contains (aggregate contains b s) b s)
    by apply geometries_set_column.
  set (S := sistemas_bancarios contains b s).
  unfold aggregate. fold S.
  assert (Hcols : columns (set_column (set_column b "sistemas_bancarios" S)
                             "sistemas_bancarios" S)
                  = columns (set_column b "sistemas_bancarios" S)).
  { cbn [set_column columns].
    destruct (decide ("sistemas_bancarios" ∈ columns b)) as [Hin|Hnin].
    - by destruct (decide ("sistemas_bancarios" ∈ columns b)).
    - destruct (decide (_ ∈ (columns b ++ _)%list)) as [|Hno]; [done|].
      exfalso. apply Hno. apply elem_of_app. right. apply list_elem_of_here. }
  assert (Hfeat : features (set_column (set_column b "sistemas_bancarios" S)
                              "sistemas_bancarios" S)
                  = features (set_column b "sistemas_bancarios" S)).
  { apply list_eq. intros i. rewrite set_column_lookup.
    rewrite (set_column_lookup b). destruct (features b !! i) as [f|]; [|done].
    cbn. by rewrite insert_insert_eq. }
  apply gdf_eq; [reflexivity|exact Hcols|exact Hfeat].
Qed.

Section CountFacts.
Variable contains : Geometry -> Geometry -> bool.

Lemma filter_length_Permutation {A} (f : A -> bool) (l l' : list A) :
  l ≡ₚ l' -> length (List.filter f l) = length (List.filter f l').
Proof.
  induction 1 as [|a l l' _ IH|a c l|l l' l'' _ IH1 _ IH2]; cbn.
  - done.
  - destruct (f a); cbn; by rewrite IH.
  - by destruct (f a), (f c).
  - by rewrite IH1.
Qed.

Lemma filter_length_le {A} (f : A -> bool) (l : list A) :
  (length (List.filter f l) <= length l)%nat.
Proof. induction l as [|a l IH]; cbn; [lia|]. destruct (f a); cbn; lia. Qed.

End CountFacts.

(** X2.  The counts do not depend on the order of the rows of the point
    frame. *)
Theorem counts_ignore_point_order
    (contains : Geometry -> Geometry -> bool) (b s s' : GeoDataFrame) :
  features s ≡ₚ features s' ->
  column (aggregate contains b s) "sistemas_bancarios"
  = column (aggregate contains b s') "sistemas_bancarios".
Proof.
  intros Hperm. rewrite !column_aggregate.
  apply List.map_ext. intros p. do 3 f_equal.
  rewrite !joined_count_filter. apply filter_length_Permutation.
  unfold geometries. by apply fmap_Permutation.
Qed.

(** X3.  Every count lies between 1 and the number of rows of the point
    frame (between 1 and 1 when that frame is empty). *)
Theorem counts_between_one_and_rows
    (contains : Geometry -> Geometry -> bool) (b s : GeoDataFrame) :
  Forall (fun c => 1 <= c <= Z.max 1 (Z.of_nat (length (features s))))
    (counted contains b s).
Proof.
  rewrite counted_eq. apply Forall_forall. intros c Hc.
  apply list_elem_of_fmap in Hc as [p [-> _]].
  pose proof (filter_length_le (joins contains p) (geometries s)) as Hle.
  rewrite <- joined_count_filter in Hle.
  unfold geometries in Hle. rewrite length_map in Hle. lia.
Qed.

(** X4.  The grouped sizes hold an entry for every polygon label and for
    no other label, so the [fill_value] of [reindex] is never used: any
    other fill value gives the same series. *)
Theorem reindex_never_fills
    (contains : Geometry -> Geometry -> bool) (b s : GeoDataFrame) :
  (forall i, is_Some (counts contains b s !! i)
             <-> (i < length (features b))%nat)
  /\ forall v, reindex (counts contains b s) (index b) v
               = sistemas_bancarios contains b s.
Proof.
  assert (Hdom : forall i, is_Some (counts contains b s !! i)
                           <-> (i < length (features b))%nat).
  { intros i. split.
    - intros Hs. destruct (decide (i < length (features b))%nat); [done|].
      rewrite counts_lookup_ge in Hs by lia. by destruct Hs.
    - intros Hi. destruct (geometries_lookup b i Hi) as [p Hp].
      by rewrite (counts_lookup contains b s i p Hp). }
  split; [exact Hdom|].
  intros v. unfold sistemas_bancarios, reindex.
  apply List.map_ext_in. intros k Hk. unfold index in Hk.
  apply in_seq in Hk.
  destruct (proj2 (Hdom k) ltac:(lia)) as [c ->]. done.
Qed.

(** X5.  The count of a polygon is never smaller than the number of
    markers the map draws inside it. *)
Theorem count_covers_markers
    (contains : Geometry -> Geometry -> bool) (b s : GeoDataFrame)
    (i : nat) (p : option Geometry) :
  geometries b !! i = Some p ->
  exists c,
    column (aggregate contains b s) "sistemas_bancarios" !! i = Some (VInt c)
    /\ Z.of_nat (points_inside contains p s) <= c.
Proof.
  intros Hp. rewrite column_aggregate, list_lookup_fmap, Hp. cbn.
  eexists. split; [reflexivity|].
  pose proof (points_inside_le contains p s). lia.
Qed.

(** ** Loading *)

(** X6.  A response with a status from 400 to 599 is never handed to the
    reader: whatever its body holds, the loader shows the HTTP error,
    whose text starts with the status code, and returns [None].  A
    response with any other status goes to the reader, and the loader
    returns what the reader made of its body. *)
Theorem status_decides_parsing
    (requests_get : string -> Exception + Response)
    (read_file : string -> Exception + GeoDataFrame)
    (url : string) (r : Response) :
  requests_get url = inr r ->
  (400 <= status_code r < 600 ->
   exists rest,
     load_geojson_from_github requests_get read_file url
     = (Done None,
        load_errors url
          {| kind := HTTPError; str := str_int (status_code r) ++ rest |}))
  /\ (~ 400 <= status_code r < 600 ->
      load_geojson_from_github requests_get read_file url
      = match read_file (content r) with
        | inr df => (Done (Some df), nil)
        | inl e => (Done None, load_errors url e)
        end).
Proof.
  intros Hget. unfold load_geojson_from_github, fetch, raise_for_status.
  rewrite Hget. split; intros Hst.
  - destruct (Z.leb_spec 400 (status_code r)); [|lia].
    destruct (Z.ltb_spec (status_code r) 500); cbn [andb].
    + by eexists.
    + destruct (Z.leb_spec 500 (status_code r)); [|lia].
      destruct (Z.ltb_spec (status_code r) 600); [|lia]. by eexists.
  - destruct (Z.leb_spec 400 (status_code r));
      destruct (Z.ltb_spec (status_code r) 500); cbn [andb]; try lia;
      destruct (Z.leb_spec 500 (status_code r));
      destruct (Z.ltb_spec (status_code r) 600); cbn [andb]; try lia;
      by destruct (read_file (content r)).
Qed.

(** [to_crs] raises on a frame without reference system and on no other. *)
Lemma to_crs_raises (transform : CRS -> CRS -> Q * Q -> Q * Q)
    (df : GeoDataFrame) (epsg : Z) (e : Exception) :
  to_crs transform df epsg = inl e -> kind e = ValueError /\ crs df = None.
Proof.
  unfold to_crs. destruct (crs df) as [c|].
  - by destruct (decide (c = EPSG epsg)).
  - by intros [= <-].
Qed.

Section MoreCycle.
Variable contains : Geometry -> Geometry -> bool.
Variable transform : CRS -> CRS -> Q * Q -> Q * Q.
Variable requests_get : string -> Exception + Response.
Variable read_file : string -> Exception + GeoDataFrame.
Variable os : platform.

Abbreviation fetch' := (fetch requests_get read_file).
Abbreviation app' := (app contains transform requests_get read_file os).

(** X7.  The second file is loaded even when the first one failed: when
    both loads fail the page reports both, the polygons file first, each
    with the text of its exception and then its URL, and the cycle
    stops. *)
Theorem both_failures_reported (ses : Session) (e1 e2 : Exception) :
  fetch' BAIRROS_URL = inl e1 ->
  fetch' SB_URL = inl e2 ->
  app' ses
  = (Stopped,
     (PREAMBLE
      ++ Error ("Erro ao carregar o arquivo: " ++ str e1)
      :: Error ("URL tentada: " ++ BAIRROS_URL)
      :: Error ("Erro ao carregar o arquivo: " ++ str e2)
      :: Error ("URL tentada: " ++ SB_URL) :: nil)%list).
Proof.
  intros H1 H2. rewrite app_load_failed by (left; by exists e1).
  by rewrite H1, H2.
Qed.

Lemma app_after_load (ses : Session) (b0 s0 : GeoDataFrame) :
  fetch' BAIRROS_URL = inr b0 ->
  fetch' SB_URL = inr s0 ->
  app' ses
  = (fst (after_load contains transform os ses b0 s0),
     (PREAMBLE ++ snd (after_load contains transform os ses b0 s0))%list).
Proof.
  intros Hb Hs.
  change (app' ses) with
    (run emit (PageConfig "Mapa de Sistemas Bancários" "🏦" "wide") in
     run emit (Title "🏦 Mapa de Sistemas Bancários por Bairro") in
     run emit (Markdown
                 "Visualização interativa de dados geográficos carregados do GitHub") in
     run emit (Spinner "🔄 Carregando dados do GitHub...") in
     let* loaded_bairros :=
       load_geojson_from_github requests_get read_file BAIRROS_URL in
     let* loaded_sb :=
       load_geojson_from_github requests_get read_file SB_URL in
     match loaded_bairros with
     | None => stop
     | Some b0 =>
         match loaded_sb with
         | None => stop
         | Some s0 => after_load contains transform os ses b0 s0
         end
     end).
  rewrite (load_ok _ _ _ _ Hb), (load_ok _ _ _ _ Hs).
  cbn [bind emit].
  by destruct (after_load contains transform os ses b0 s0) as [[g| |e] es].
Qed.

(** X8.  A frame that carries no reference system ends the cycle with a
    [ValueError] out of [to_crs]: the page stops after the processing
    spinner, with no sidebar, no map and no download button. *)
Theorem naive_frame_ends_cycle (ses : Session) (b0 s0 : GeoDataFrame) :
  fetch' BAIRROS_URL = inr b0 ->
  fetch' SB_URL = inr s0 ->
  crs b0 = None \/ crs s0 = None ->
  exists e,
    kind e = ValueError
    /\ app' ses = (Raised e, (PREAMBLE ++ Spinner PROCESSING :: nil)%list).
Proof.
  intros Hb Hs Hcrs. rewrite (app_after_load ses b0 s0 Hb Hs).
  unfold after_load, process.
  destruct (to_crs transform b0 4326) as [e|b1] eqn:Eb.
  - exists e. split; [|reflexivity]. by apply to_crs_raises in Eb as [? _].
  - destruct (to_crs transform s0 4326) as [e|s1] eqn:Es.
    + exists e. split; [|reflexivity]. by apply to_crs_raises in Es as [? _].
    + exfalso. destruct Hcrs as [Hc|Hc].
      * destruct (to_crs_naive transform b0 4326 Hc) as [e He]. congruence.
      * destruct (to_crs_naive transform s0 4326 Hc) as [e He]. congruence.
Qed.

End MoreCycle.

(** ** The page of a finished cycle *)

Lemma process_page (contains : Geometry -> Geometry -> bool)
    (transform : CRS -> CRS -> Q * Q -> Q * Q)
    (b s : GeoDataFrame) (bs : GeoDataFrame * GeoDataFrame)
    (es : list Element) :
  process contains transform b s = (Done bs, es) ->
  es = Spinner PROCESSING :: nil.
Proof.
  unfold process. intros H.
  apply bind_Done in H as (u & e0 & es1 & He & H & ->).
  apply bind_Done in H as (b1 & e1 & es2 & Hb & H & ->).
  apply bind_Done in H as (s1 & e2 & es3 & Hs & H & ->).
  apply emit_Done in He as ->.
  apply try_Done in Hb as [_ ->]. apply try_Done in Hs as [_ ->].
  unfold ret in H. by injection H as _ <-.
Qed.

Lemma sidebar_page (ses : Session) : snd (sidebar ses) = SIDEBAR.
Proof. reflexivity. Qed.

Lemma sidebar_Done (ses : Session) : exists cfg, fst (sidebar ses) = Done cfg.
Proof. by eexists. Qed.

Lemma export_page (os : platform) (b : GeoDataFrame)
    (data : list Byte.byte) (es : list Element) :
  export os b = (Done data, es) -> es = FOOTER data.
Proof.
  unfold export. intros H.
  apply bind_Done in H as (u1 & e1 & r1 & H1 & H & ->).
  apply bind_Done in H as (u2 & e2 & r2 & H2 & H & ->).
  apply bind_Done in H as (df & e3 & r3 & Hd & H & ->).
  apply bind_Done in H as (u4 & e4 & r4 & H4 & H & ->).
  apply emit_Done in H1 as ->. apply emit_Done in H2 as ->.
  apply try_Done in Hd as [_ ->]. apply emit_Done in H4 as ->.
  unfold ret in H. by injection H as <- <-.
Qed.

(** X9.  A cycle that runs to its end shows, in this order: the title
    block and the loading spinner, the processing spinner, the four
    sidebar widgets, the map it built, the two closing texts and the
    download button that carries the CSV; it shows no error message. *)
Theorem finished_cycle_page
    (contains : Geometry -> Geometry -> bool)
    (transform : CRS -> CRS -> Q * Q -> Q * Q)
    (requests_get : string -> Exception + Response)
    (read_file : string -> Exception + GeoDataFrame)
    (os : platform) (ses : Session) (g : Globals) (es : list Element) :
  app contains transform requests_get read_file os ses = (Done g, es) ->
  es = (PREAMBLE ++ Spinner PROCESSING :: SIDEBAR
        ++ StFolium (m g) 1200 700 :: FOOTER (csv g))%list
  /\ existsb is_Error es = false.
Proof.
  intros H.
  assert (Hes : es = (PREAMBLE ++ Spinner PROCESSING :: SIDEBAR
                      ++ StFolium (m g) 1200 700 :: FOOTER (csv g))%list).
  { pose proof (app_Done _ _ _ _ _ _ _ _ H)
      as (b0 & s0 & _ & _ & _ & Hb & Hs & _).
    rewrite (app_after_load _ _ _ _ _ ses b0 s0 Hb Hs) in H.
    destruct (after_load contains transform os ses b0 s0) as [r es'] eqn:E.
    cbn [fst snd] in H. injection H as -> <-. f_equal.
    unfold after_load in E.
    apply bind_Done in E as (bs & e1 & r1 & Hp & E & ->).
    apply bind_Done in E as ([[tile heat] clus] & e2 & r2 & Hc & E & ->).
    apply bind_Done in E as ([mp locs] & e3 & r3 & Hm & E & ->).
    apply bind_Done in E as (data & e4 & r4 & He & E & ->).
    apply process_page in Hp as ->.
    apply (f_equal snd) in Hc. rewrite sidebar_page in Hc. cbn in Hc. subst e2.
    apply build_map_Done in Hm as (_ & _ & _ & _ & _ & _ & ->).
    apply export_page in He as ->.
    unfold ret in E. injection E as <- <-. cbn [m csv fst].
    reflexivity. }
  split; [exact Hes|]. rewrite Hes. reflexivity.
Qed.

(** ** The name column *)

Section NameColumn.
Variable contains : Geometry -> Geometry -> bool.

Lemma aggregate_columns (b s : GeoDataFrame) (n : string) :
  n ∈ columns (aggregate contains b s)
  <-> n = "sistemas_bancarios" \/ n ∈ columns b.
Proof.
  unfold aggregate, set_column. cbn [columns].
  destruct (decide ("sistemas_bancarios" ∈ columns b)) as [Hin|Hnin].
  - split; [by right|]. by intros [->|].
  - rewrite elem_of_app, list_elem_of_singleton. tauto.
Qed.

Lemma aggregate_series_at (b s : GeoDataFrame) (i : nat) (f : Feature) :
  features b !! i = Some f ->
  series_at (sistemas_bancarios contains b s) i
  = Some (Z.of_nat (Nat.max 1 (joined_count contains (geometry f) s))).
Proof.
  intros Hf. unfold sistemas_bancarios. rewrite series_at_reindex.
  - rewrite (counts_lookup contains b s i (geometry f)); [done|].
    unfold geometries. by rewrite list_lookup_fmap, Hf.
  - unfold index. apply elem_of_seq. apply lookup_lt_Some in Hf. lia.
Qed.

End NameColumn.

(** The two outcomes of the column selection on an aggregated frame. *)
Lemma export_reads_names_and_counts_aux
    (contains : Geometry -> Geometry -> bool) (b s : GeoDataFrame) :
  ("NOME" ∈ columns b ->
   select_columns (aggregate contains b s)
     ("NOME" :: "sistemas_bancarios" :: nil)
   = inr {| header := "NOME" :: "sistemas_bancarios" :: nil;
            rows :=
              List.map
                (fun f =>
                   default VNone (properties f !! "NOME")
                   :: VInt (Z.of_nat
                              (Nat.max 1
                                 (joined_count contains (geometry f) s)))
                   :: nil)
                (features b) |})
  /\ ("NOME" ∉ columns b ->
      select_columns (aggregate contains b s)
        ("NOME" :: "sistemas_bancarios" :: nil)
      = inl {| kind := KeyError; str := "NOME not in index" |}).
Proof.
  unfold select_columns. cbn [List.find]. split; intros Hn.
  - rewrite (bool_decide_eq_true_2 ("NOME" ∈ _))
      by (apply aggregate_columns; by right).
    rewrite (bool_decide_eq_true_2 ("sistemas_bancarios" ∈ _))
      by (apply aggregate_columns; by left).
    cbn [negb]. f_equal. f_equal.
    unfold aggregate, set_column, index. cbn [features].
    rewrite List.map_map.
    apply (map_indexed_ext
             (fun i f =>
                List.map
                  (fun n =>
                     default VNone
                       (<["sistemas_bancarios" :=
                            from_option VInt VNone
                              (series_at (sistemas_bancarios contains b s) i)]>
                          (properties f) !! n))
                  ("NOME" :: "sistemas_bancarios" :: nil))).
    intros i f Hf. cbn [List.map Nat.add].
    rewrite lookup_insert_ne by done. rewrite lookup_insert_eq.
    by rewrite (aggregate_series_at contains b s i f Hf).
  - rewrite (bool_decide_eq_false_2 ("NOME" ∈ _)); [done|].
    rewrite aggregate_columns. by intros [|].
Qed.


(** X10.  What the export reads off the aggregated frame.  When the
    polygons have a [NOME] column, the two-column frame handed to the
    encoder has one row per polygon, in order, holding the name cell and
    the count; when they have none, the selection raises a [KeyError]
    that names [NOME]. *)
Theorem export_reads_names_and_counts
    (contains : Geometry -> Geometry -> bool) (b s : GeoDataFrame) :
  ("NOME" ∈ columns b ->
   select_columns (aggregate contains b s)
     ("NOME" :: "sistemas_bancarios" :: nil)
   = inr {| header := "NOME" :: "sistemas_bancarios" :: nil;
            rows :=
              List.map
                (fun f =>
                   default VNone (properties f !! "NOME")
                   :: VInt (Z.of_nat
                              (Nat.max 1
                                 (joined_count contains (geometry f) s)))
                   :: nil)
                (features b) |})
  /\ ("NOME" ∉ columns b ->
      select_columns (aggregate contains b s)
        ("NOME" :: "sistemas_bancarios" :: nil)
      = inl {| kind := KeyError; str := "NOME not in index" |}).
Proof. apply export_reads_names_and_counts_aux. Qed.

(** X11.  The rule the encoder follows for any name: a name that holds
    a comma, a double quote or a character of the platform's line
    terminator (the line feed, and on Windows also the carriage return)
    is written between double quotes with its double quotes doubled; any
    other name is written as it is, on Posix also one that holds a
    carriage return; the count is written in decimal and never quoted. *)
Theorem csv_rows_follow_quoting_rule (os : platform) (l : list (string * Z)) :
  convert_df os (frame_of_pairs l)
  = encode_utf8
      ("NOME,sistemas_bancarios" ++ linesep os
       ++ String.concat ""
            (List.map
               (fun nc =>
                  (if needs_quotes os (fst nc) then quoted (fst nc)
                   else fst nc)
                  ++ "," ++ str_int (snd nc) ++ linesep os) l)).
Proof.
  rewrite convert_df_pairs. do 4 f_equal.
  apply List.map_ext. intros [n c]. cbn [fst snd]. f_equal.
  unfold write_field, needs_quotes.
  by rewrite (any_char_ext _ _ n (special_linesep os)).
Qed.

(** A carriage return alone: written as it is on Posix, between double
    quotes on Windows. *)
Example csv_carriage_return_posix :
  convert_df Posix
    (frame_of_pairs ((String "A" (String CR "B"), 1) :: nil))
  = encode_utf8
      ("NOME,sistemas_bancarios" ++ linesep Posix
       ++ String "A" (String CR "B") ++ ",1" ++ linesep Posix).
Proof. reflexivity. Qed.

Example csv_carriage_return_nt :
  convert_df Nt
    (frame_of_pairs ((String "A" (String CR "B"), 1) :: nil))
  = encode_utf8
      ("NOME,sistemas_bancarios" ++ linesep Nt
       ++ quoted (String "A" (String CR "B")) ++ ",1" ++ linesep Nt).
Proof. reflexivity. Qed.

Section Traces.

Lemma bind_fst {A B} (c : Script A) (k : A -> Script B) :
  fst (bind c k)
  = match fst c with
    | Done a => fst (k a)
    | Stopped => Stopped
    | Raised e => Raised e
    end.
Proof. destruct c as [[a| |e] es]; cbn; [|done..]. by destruct (k a). Qed.

Lemma bind_snd {A B} (c : Script A) (k : A -> Script B) :
  snd (bind c k)
  = match fst c with
    | Done a => (snd c ++ snd (k a))%list
    | _ => snd c
    end.
Proof. destruct c as [[a| |e] es]; cbn; [|done..]. by destruct (k a). Qed.

Lemma process_trace (contains : Geometry -> Geometry -> bool)
    (transform : CRS -> CRS -> Q * Q -> Q * Q) (b s : GeoDataFrame) :
  snd (process contains transform b s) = Spinner PROCESSING :: nil.
Proof.
  unfold process.
  destruct (to_crs transform b 4326) as [e|b1]; [reflexivity|].
  destruct (to_crs transform s 4326) as [e|s1]; reflexivity.
Qed.

Lemma build_map_trace (tile : string) (heat clus : bool)
    (b s : GeoDataFrame) :
  existsb is_DownloadButton (snd (build_map tile heat clus b s)) = false.
Proof.
  unfold build_map.
  destruct (colormap b) as [e|cmap]; [reflexivity|]. cbn [try_ bind ret].
  destruct (mapM (style_function cmap) (features b)) as [e|styles];
    [reflexivity|]. cbn [try_ bind ret].
  destruct (check_tooltip tooltip b) as [e|u]; [reflexivity|].
  cbn [try_ bind ret].
  destruct (marker_locations s) as [e|locs]; reflexivity.
Qed.

End Traces.

(** X12.  When the polygons file has no [NOME] column the cycle never
    runs to its end and never shows the download button, whatever the
    points file and the widgets hold. *)
Theorem missing_name_column_never_exports
    (contains : Geometry -> Geometry -> bool)
    (transform : CRS -> CRS -> Q * Q -> Q * Q)
    (requests_get : string -> Exception + Response)
    (read_file : string -> Exception + GeoDataFrame)
    (os : platform) (ses : Session) (b0 : GeoDataFrame) :
  fetch requests_get read_file BAIRROS_URL = inr b0 ->
  "NOME" ∉ columns b0 ->
  (forall g es,
      app contains transform requests_get read_file os ses <> (Done g, es))
  /\ existsb is_DownloadButton
       (snd (app contains transform requests_get read_file os ses)) = false.
Proof.
  intros Hb Hn.
  assert (Hexp : forall b1 s1,
             to_crs transform b0 4326 = inr b1 ->
             export os (aggregate contains b1 s1)
             = (Raised {| kind := KeyError; str := "NOME not in index" |},
                Markdown "---" :: Markdown ABOUT :: nil)).
  { intros b1 s1 Hb1. unfold export.
    rewrite (proj2 (export_reads_names_and_counts_aux contains b1 s1));
      [reflexivity|].
    unfold to_crs in Hb1. destruct (crs b0) as [c|]; [|done].
    destruct (decide (c = EPSG 4326)); injection Hb1 as <-; exact Hn. }
  split.
  - intros g es H.
    pose proof (app_Done _ _ _ _ _ _ _ _ H)
      as (b0' & s0 & es1 & es2 & es3 & Hb' & _ & Hp & _ & He).
    rewrite Hb in Hb'. injection Hb' as <-.
    apply process_Done in Hp as (b1 & Hb1 & _ & Hagg).
    rewrite Hagg, (Hexp b1 _ Hb1) in He. discriminate.
  - destruct (fetch requests_get read_file SB_URL) as [e|s0] eqn:Hs.
    + rewrite app_load_failed by (right; by exists e).
      rewrite Hb, Hs. reflexivity.
    + rewrite (app_after_load _ _ _ _ _ ses b0 s0 Hb Hs). cbn [snd].
      rewrite existsb_app. cbn [PREAMBLE existsb is_DownloadButton orb].
      unfold after_load. rewrite bind_snd, process_trace.
      destruct (process contains transform b0 s0) as [[[b1 s1]| |e] es1] eqn:Hp;
        cbn [fst]; [|reflexivity..].
      apply process_Done in Hp as (b1' & Hb1 & _ & ->).
      cbn [app existsb is_DownloadButton orb].
      rewrite bind_snd, sidebar_page.
      destruct (sidebar_Done ses) as [[[tile heat] clus] ->].
      rewrite existsb_app. cbn [SIDEBAR existsb is_DownloadButton orb].
      rewrite bind_snd. cbn [fst snd].
      pose proof (build_map_trace tile heat clus
                    (aggregate contains b1' s1) s1) as Hm.
      destruct (build_map tile heat clus (aggregate contains b1' s1) s1)
        as [[ml| |e] es2]; cbn [fst snd] in *; [|exact Hm..].
      rewrite !existsb_app, Hm, bind_snd, (Hexp b1' s1 Hb1). reflexivity.
Qed.

(** ** The map *)

(** X13.  A finished map keeps the tiles chosen in the sidebar, the fixed
    centre and the fixed zoom.  Its layers are, in this order: the
    choropleth; the marker cluster exactly when its box is ticked, even
    when there is no marker to put in it; the heat map exactly when its
    box is ticked and there is at least one location; then the legend,
    the layer control and the measure control. *)
Theorem map_layers_in_order
    (tile : string) (heat clus : bool) (b s : GeoDataFrame)
    (mp : Map) (locs : list Location) (es : list Element) :
  build_map tile heat clus b s = (Done (mp, locs), es) ->
  tiles mp = tile
  /\ location mp = (-(255 # 10), -(493 # 10))%Q
  /\ zoom_start mp = 12
  /\ existsb is_MarkerCluster (children mp) = clus
  /\ existsb is_HeatMap (children mp) = heat && negb (is_nil locs)
  /\ exists cmap styles,
       colormap b = inr cmap
       /\ children mp = layers heat clus b cmap styles locs.
Proof.
  intros H.
  pose proof (build_map_Done _ _ _ _ _ _ _ _ H)
    as (cmap & styles & Hc & _ & _ & Hch & _).
  assert (Hbase : tiles mp = tile
                  /\ location mp = (-(255 # 10), -(493 # 10))%Q
                  /\ zoom_start mp = 12).
  { unfold build_map in H.
    apply bind_Done in H as (cm & e1 & r1 & _ & H & _).
    apply bind_Done in H as (st & e2 & r2 & _ & H & _).
    apply bind_Done in H as (u & e3 & r3 & _ & H & _).
    apply bind_Done in H as (ls & e4 & r4 & _ & H & _).
    apply bind_Done in H as (u' & e5 & r5 & _ & H & _).
    unfold ret in H. injection H as <- _ _.
    by destruct clus, (heat && negb (is_nil ls)). }
  destruct Hbase as (Ht & Hl & Hz).
  repeat (split; [done|]). rewrite Hch. unfold layers.
  split; [|split; [|by exists cmap, styles]].
  - by destruct clus, (heat && negb (is_nil locs)).
  - by destruct clus, (heat && negb (is_nil locs)).
Qed.

(** ** Reprojection *)

Lemma map_coords_kind (f : Q * Q -> Q * Q) (g : Geometry) :
  geom_type (map_coords f g) = geom_type g
  /\ is_empty (map_coords f g) = is_empty g.
Proof. destruct g as [[c|]|k [|c cs]]; by destruct_and?. Qed.

(** X14.  Reprojection, when it does not raise, changes geometries only:
    the columns, the number of rows and every attribute stay, a null
    geometry stays null, and a geometry keeps its type and its
    emptiness, so the same rows give markers before and after.
    Reprojecting the result again returns it unchanged. *)
Theorem to_crs_keeps_rows_and_attributes
    (transform : CRS -> CRS -> Q * Q -> Q * Q)
    (df df' : GeoDataFrame) (epsg : Z) :
  to_crs transform df epsg = inr df' ->
  to_crs transform df' epsg = inr df'
  /\ columns df' = columns df
  /\ length (features df') = length (features df)
  /\ List.map properties (features df') = List.map properties (features df)
  /\ List.map is_marker (geometries df') = List.map is_marker (geometries df)
  /\ List.map (option_map geom_type) (geometries df')
     = List.map (option_map geom_type) (geometries df).
Proof.
  intros H. split; [apply to_crs_same; eapply to_crs_tag, H|].
  unfold to_crs in H. destruct (crs df) as [c|]; [|done].
  destruct (decide (c = EPSG epsg)) as [->|Hne]; injection H as <-; [done|].
  unfold geometries. cbn [columns features].
  rewrite length_map, !List.map_map. repeat split.
  - apply List.map_ext. intros f. cbn [geometry].
    destruct (geometry f) as [g|]; [|done]. cbn.
    destruct (map_coords_kind (transform c (EPSG epsg)) g) as [-> ->].
    done.
  - apply List.map_ext. intros f. cbn [geometry].
    destruct (geometry f) as [g|]; [|done]. cbn.
    by destruct (map_coords_kind (transform c (EPSG epsg)) g) as [-> _].
Qed.

(** ** The colour scale *)

Section Scale.

Lemma Qle_bool_false (p q : Q) : Qle_bool p q = false -> (q < p)%Q.
Proof.
  intros H. apply Qnot_le_lt. intros Hle.
  apply Qle_bool_iff in Hle. congruence.
Qed.

Lemma num_lt_true (p q : Q) : (p < q)%Q -> num_lt (Fin p) (Fin q) = true.
Proof.
  intros H. unfold num_lt. apply andb_true_iff. split.
  - apply Qle_bool_iff. by apply Qlt_le_weak.
  - apply negb_true_iff. apply not_true_is_false. intros He.
    apply Qeq_bool_iff in He. rewrite He in H. by apply Qlt_irrefl in H.
Qed.

Lemma num_lt_false (p q : Q) : Qle_bool p q = false -> num_lt (Fin p) (Fin q) = false.
Proof. intros H. unfold num_lt. by rewrite H. Qed.

Lemma Qeq_bool_false (p : Q) : ~ (p == 0)%Q -> Qeq_bool p 0 = false.
Proof.
  intros H. apply not_true_is_false. intros He. by apply Qeq_bool_iff in He.
Qed.

Lemma py_get_second {A} (a b c : A) : py_get (a :: b :: c :: nil) 1 = Some b.
Proof. reflexivity. Qed.

Lemma py_get_third {A} (a b c : A) : py_get (a :: b :: c :: nil) 2 = Some c.
Proof. reflexivity. Qed.

Lemma py_get_minus_one {A} (a b c : A) :
  py_get (a :: b :: c :: nil) (-1) = Some c.
Proof. reflexivity. Qed.

(** On an index of three finite entries with three finite colours, where
    neighbouring entries differ whenever the ends differ, every finite
    value has a colour, and that colour is finite. *)
Lemma rgba_floats_total (cmap : LinearColormap) (e0 e1 e2 : Q)
    (c0 c1 c2 : rgba) (v : Q) :
  cm_index cmap = Fin e0 :: Fin e1 :: Fin e2 :: nil ->
  cm_colors cmap = c0 :: c1 :: c2 :: nil ->
  finite_rgba c0 -> finite_rgba c1 -> finite_rgba c2 ->
  ((e0 < e2)%Q -> ~ (e1 - e0 == 0)%Q /\ ~ (e2 - e1 == 0)%Q) ->
  exists c, rgba_floats_tuple cmap (Fin v) = inr c /\ finite_rgba c.
Proof.
  intros Hi Hc F0 F1 F2 Hgap.
  unfold rgba_floats_tuple, get_or_raise. rewrite Hi, Hc, !py_get_first.
  cbn [num_le].
  destruct (Qle_bool v e0) eqn:H0; [by exists c0|].
  rewrite py_get_minus_one.
  cbn [num_le].
  destruct (Qle_bool e2 v) eqn:H2; [by exists c2|].
  apply Qle_bool_false in H0 as L0. apply Qle_bool_false in H2 as L2.
  destruct (Hgap (Qlt_trans _ _ _ L0 L2)) as [G1 G2].
  cbn [List.filter].
  rewrite (num_lt_true e0 v L0), (num_lt_false e2 v H2).
  destruct F0 as (r0 & g0 & b0 & a0 & ->).
  destruct F1 as (r1 & g1 & b1 & a1 & ->).
  destruct F2 as (r2 & g2 & b2 & a2 & ->).
  destruct (num_lt (Fin e1) (Fin v)); cbn [length].
  - change (Z.of_nat 2) with 2. change (2 - 1) with 1.
    rewrite !py_get_second, !py_get_third.
    cbn [num_sub num_mul num_div]. rewrite (Qeq_bool_false _ G2).
    eexists. split; [reflexivity|]. by repeat eexists.
  - change (Z.of_nat 1) with 1. change (1 - 1) with 0.
    rewrite !py_get_first, !py_get_second.
    cbn [num_sub num_mul num_div]. rewrite (Qeq_bool_false _ G1).
    eexists. split; [reflexivity|]. by repeat eexists.
Qed.

Lemma rgba_hex_total (cmap : LinearColormap) (v : num) (c : rgba) :
  rgba_floats_tuple cmap v = inr c -> finite_rgba c ->
  exists h, rgba_hex_str cmap v = inr h.
Proof.
  intros Hc (r & g & b & a & ->).
  unfold rgba_hex_str, rgba_bytes_tuple. rewrite Hc. by eexists.
Qed.

End Scale.

Section Styler.

Ltac norm_entry :=
  change (inject_Z (Z.of_nat 0)) with 0%Q;
  change (inject_Z (Z.of_nat 1)) with 1%Q;
  change (inject_Z (Z.of_nat 2)) with 2%Q;
  change (inject_Z (Z.of_nat 3 - 1)) with 2%Q.

Lemma index_entry_first (lo hi : Q) : (index_entry lo hi 0 == lo)%Q.
Proof. unfold index_entry. norm_entry. field. Qed.

Lemma index_entry_last (lo hi : Q) : (index_entry lo hi 2 == hi)%Q.
Proof. unfold index_entry. norm_entry. field. Qed.

Lemma index_entry_gap (lo hi : Q) :
  (index_entry lo hi 0 < index_entry lo hi 2)%Q ->
  ~ (index_entry lo hi 1 - index_entry lo hi 0 == 0)%Q
  /\ ~ (index_entry lo hi 2 - index_entry lo hi 1 == 0)%Q.
Proof.
  intros Hlt. rewrite index_entry_first, index_entry_last in Hlt.
  assert (E1 : (index_entry lo hi 1 - index_entry lo hi 0
                == (hi - lo) / 2)%Q) by (unfold index_entry; norm_entry; field).
  assert (E2 : (index_entry lo hi 2 - index_entry lo hi 1
                == (hi - lo) / 2)%Q) by (unfold index_entry; norm_entry; field).
  assert (Hne : ~ ((hi - lo) / 2 == 0)%Q).
  { intros H0.
    assert (Hz : (hi - lo == 0)%Q).
    { apply (Qeq_trans _ ((hi - lo) / 2 * 2)); [field|].
      rewrite H0. reflexivity. }
    assert (Heq : (hi == lo)%Q).
    { apply (Qeq_trans _ (hi - lo + lo)); [ring|].
      rewrite Hz. ring. }
    rewrite Heq in Hlt. by apply Qlt_irrefl in Hlt. }
  split; intros H0; apply Hne.
  - apply (Qeq_trans _ _ _ (Qeq_sym _ _ E1) H0).
  - apply (Qeq_trans _ _ _ (Qeq_sym _ _ E2) H0).
Qed.

(** The colormap of the script, on a scale with finite ends. *)
Lemma colormap_shape (b : GeoDataFrame) (lo hi : Q) :
  min_val b = Fin lo -> max_val b = Fin hi ->
  exists cmap c0 c1 c2,
    colormap b = inr cmap
    /\ cm_index cmap
       = Fin (index_entry lo hi 0) :: Fin (index_entry lo hi 1)
         :: Fin (index_entry lo hi 2) :: nil
    /\ cm_colors cmap = c0 :: c1 :: c2 :: nil
    /\ finite_rgba c0 /\ finite_rgba c1 /\ finite_rgba c2
    /\ (forall v, rgba_floats_tuple cmap v = inr c0 ->
                  rgba_hex_str cmap v = inr "#fef9efff")
    /\ (forall v, rgba_floats_tuple cmap v = inr c2 ->
                  rgba_hex_str cmap v = inr "#d8b07aff").
Proof.
  intros Hmin Hmax. unfold colormap, new_LinearColormap.
  rewrite Hmin, Hmax.
  set (cols := parse_all _). vm_compute in cols. subst cols.
  cbn [length Nat.ltb Nat.leb].
  do 4 eexists. split; [reflexivity|]. cbn [cm_index cm_colors].
  split; [reflexivity|]. split; [reflexivity|].
  split; [by repeat eexists|]. split; [by repeat eexists|].
  split; [by repeat eexists|].
  split; intros v Hv; unfold rgba_hex_str, rgba_bytes_tuple; by rewrite Hv.
Qed.

(** The colormap is always built, also on an empty column. *)
Lemma colormap_built (b : GeoDataFrame) : exists cmap, colormap b = inr cmap.
Proof.
  unfold colormap, new_LinearColormap.
  set (cols := parse_all _). vm_compute in cols. subst cols.
  cbn [length Nat.ltb Nat.leb]. by eexists.
Qed.

Lemma fold_min_spec (l : list Z) (a : Z) :
  List.fold_left Z.min l a ∈ a :: l
  /\ forall x, x ∈ a :: l -> List.fold_left Z.min l a <= x.
Proof.
  revert a. induction l as [|c l IH]; intros a; cbn.
  - split; [apply list_elem_of_here|].
    intros x Hx. apply list_elem_of_singleton in Hx. lia.
  - destruct (IH (Z.min a c)) as [Hin Hle]. split.
    + apply elem_of_cons in Hin as [->|Hin].
      * destruct (Z.min_spec a c) as [[_ ->]|[_ ->]];
          [apply list_elem_of_here|].
        apply list_elem_of_further, list_elem_of_here.
      * by do 2 apply list_elem_of_further.
    + intros x Hx.
      assert (Hm : List.fold_left Z.min l (Z.min a c) <= Z.min a c)
        by (apply Hle, list_elem_of_here).
      apply elem_of_cons in Hx as [->|Hx]; [lia|].
      apply elem_of_cons in Hx as [->|Hx]; [lia|].
      apply Hle. by apply list_elem_of_further.
Qed.

Lemma fold_max_spec (l : list Z) (a : Z) :
  List.fold_left Z.max l a ∈ a :: l
  /\ forall x, x ∈ a :: l -> x <= List.fold_left Z.max l a.
Proof.
  revert a. induction l as [|c l IH]; intros a; cbn.
  - split; [apply list_elem_of_here|].
    intros x Hx. apply list_elem_of_singleton in Hx. lia.
  - destruct (IH (Z.max a c)) as [Hin Hle]. split.
    + apply elem_of_cons in Hin as [->|Hin].
      * destruct (Z.max_spec a c) as [[_ ->]|[_ ->]];
          [apply list_elem_of_further, list_elem_of_here|].
        apply list_elem_of_here.
      * by do 2 apply list_elem_of_further.
    + intros x Hx.
      assert (Hm : Z.max a c <= List.fold_left Z.max l (Z.max a c))
        by (apply Hle, list_elem_of_here).
      apply elem_of_cons in Hx as [->|Hx]; [lia|].
      apply elem_of_cons in Hx as [->|Hx]; [lia|].
      apply Hle. by apply list_elem_of_further.
Qed.

Lemma int_cells_elem (b : GeoDataFrame) (z : Z) :
  z ∈ int_cells (column b "sistemas_bancarios")
  <-> exists f, f ∈ features b /\ count_of f = Some z.
Proof.
  unfold int_cells, column, count_of. rewrite list_elem_of_omap. split.
  - intros (v & Hv & Hz). apply list_elem_of_fmap in Hv as (f & -> & Hf).
    exists f. split; [done|].
    destruct (properties f !! "sistemas_bancarios") as [[| |z'|]|]; cbn in *;
      congruence.
  - intros (f & Hf & Hz). exists (VInt z). split; [|done].
    apply list_elem_of_fmap. exists f. split; [|done].
    destruct (properties f !! "sistemas_bancarios") as [[| |z'|]|]; cbn in *;
      congruence.
Qed.

(** The ends of the scale are counts of the frame, below and above every
    other count. *)
Lemma scale_ends (b : GeoDataFrame) (f : Feature) (z : Z) :
  f ∈ features b -> count_of f = Some z ->
  exists lo hi,
    min_val b = of_int lo /\ max_val b = of_int hi
    /\ lo <= z <= hi
    /\ (exists f', f' ∈ features b /\ count_of f' = Some lo)
    /\ (exists f', f' ∈ features b /\ count_of f' = Some hi).
Proof.
  intros Hf Hz.
  assert (Hin : z ∈ int_cells (column b "sistemas_bancarios"))
    by (apply int_cells_elem; by exists f).
  unfold min_val, max_val.
  destruct (int_cells (column b "sistemas_bancarios")) as [|a l] eqn:E;
    [by apply elem_of_nil in Hin|].
  cbn [series_min series_max num_of_stat].
  destruct (fold_min_spec l a) as [Hmi Hml].
  destruct (fold_max_spec l a) as [Hxi Hxl].
  exists (List.fold_left Z.min l a), (List.fold_left Z.max l a).
  repeat split; try done.
  - by apply Hml.
  - by apply Hxl.
  - apply int_cells_elem. by rewrite E.
  - apply int_cells_elem. by rewrite E.
Qed.

Lemma mapM_total {A B} (f : A -> Exception + B) (P : B -> Prop)
    (l : list A) :
  (forall a, a ∈ l -> exists c, f a = inr c /\ P c) ->
  exists cs, mapM f l = inr cs /\ length cs = length l /\ Forall P cs.
Proof.
  induction l as [|a l IH]; intros H.
  - by exists nil.
  - destruct (H a (list_elem_of_here _ _)) as (c & Hc & Pc).
    destruct IH as (cs & Hcs & Hlen & HP).
    { intros a' Ha'. apply H. by apply list_elem_of_further. }
    exists (c :: cs). cbn. rewrite Hc, Hcs. repeat split; [by f_equal|].
    by constructor.
Qed.

(** A feature that holds an integer count gets a style, whatever the
    frame it stands in. *)
Lemma style_of_counted (b : GeoDataFrame) (cmap : LinearColormap)
    (f : Feature) (z : Z) :
  colormap b = inr cmap ->
  f ∈ features b -> count_of f = Some z ->
  exists st, style_function cmap f = inr st /\ outlined st.
Proof.
  intros Hcm Hf Hz.
  destruct (scale_ends b f z Hf Hz) as (lo & hi & Hmin & Hmax & _).
  destruct (colormap_shape b _ _ Hmin Hmax)
    as (cmap' & c0 & c1 & c2 & Hcm' & Hi & Hc & F0 & F1 & F2 & _).
  rewrite Hcm in Hcm'. injection Hcm' as <-.
  destruct (rgba_floats_total cmap _ _ _ c0 c1 c2 (inject_Z z) Hi Hc F0 F1 F2
              (index_entry_gap _ _)) as (c & Hv & Fc).
  destruct (rgba_hex_total cmap _ c Hv Fc) as [h Hh].
  unfold style_function. unfold count_of in Hz.
  destruct (properties f !! "sistemas_bancarios") as [[| |z'|]|];
    try discriminate. injection Hz as ->. cbn [default as_number].
  simpl. change (Fin (inject_Z z)) with (of_int z) in Hh. rewrite Hh.
  eexists. split; [reflexivity|]. by repeat split.
Qed.

End Styler.

(** X15.  After the aggregation, building the colormap and styling the
    polygons never raises, whatever the two frames hold: every polygon
    gets a style, with a black outline of weight 1.5 and a fill opacity
    of 0.7.  With no polygon at all the colormap is still built. *)
Theorem aggregated_frame_is_styled
    (contains : Geometry -> Geometry -> bool) (b s : GeoDataFrame) :
  exists cmap styles,
    colormap (aggregate contains b s) = inr cmap
    /\ mapM (style_function cmap) (features (aggregate contains b s))
       = inr styles
    /\ length styles = length (features b)
    /\ Forall outlined styles.
Proof.
  destruct (colormap_built (aggregate contains b s)) as [cmap Hcm].
  destruct (mapM_total (style_function cmap) outlined
              (features (aggregate contains b s))) as (styles & Hs & Hl & Ho).
  { intros f Hf. apply list_elem_of_lookup in Hf as [i Hi].
    assert (Hc : exists z, count_of f = Some z).
    { unfold aggregate in Hi. rewrite set_column_lookup in Hi.
      destruct (features b !! i) as [f0|] eqn:Hf0; [|done].
      injection Hi as <-. unfold count_of. cbn [properties].
      rewrite lookup_insert_eq,
        (aggregate_series_at contains b s i f0 Hf0). by eexists. }
    destruct Hc as [z Hz].
    apply (style_of_counted _ cmap f z Hcm); [|done].
    apply list_elem_of_lookup. by exists i. }
  exists cmap, styles. repeat split; try done.
  rewrite Hl. unfold aggregate, set_column, index. cbn [features].
  rewrite length_map, length_combine, length_seq. lia.
Qed.

(** X16.  On any frame, a polygon whose count is the smallest gets the
    first colour of the palette, and a polygon whose count is the largest
    gets the last colour as soon as some polygon has a smaller count. *)
Theorem extreme_counts_get_end_colours
    (b : GeoDataFrame) (cmap : LinearColormap) (f : Feature) (z : Z) :
  colormap b = inr cmap ->
  f ∈ features b -> count_of f = Some z ->
  ((forall f' z', f' ∈ features b -> count_of f' = Some z' -> z <= z') ->
   style_function cmap f = inr PALE)
  /\ ((forall f' z', f' ∈ features b -> count_of f' = Some z' -> z' <= z) ->
      (exists f' z', f' ∈ features b /\ count_of f' = Some z' /\ z' < z) ->
      style_function cmap f = inr DARK).
Proof.
  intros Hcm Hf Hz.
  destruct (scale_ends b f z Hf Hz)
    as (lo & hi & Hmin & Hmax & [Hlo Hhi] & (fl & Hfl & Hcl) & (fh & Hfh & Hch)).
  destruct (colormap_shape b _ _ Hmin Hmax)
    as (cmap' & c0 & c1 & c2 & Hcm' & Hi & Hc & _ & _ & _ & Hpale & Hdark).
  rewrite Hcm in Hcm'. injection Hcm' as <-.
  assert (Hval : forall h,
             rgba_hex_str cmap (of_int z) = inr h ->
             style_function cmap f
             = inr {| fillColor := h; color := "black";
                      weight := 15 # 10; fillOpacity := 7 # 10 |}).
  { intros h Hh. unfold style_function. unfold count_of in Hz.
    destruct (properties f !! "sistemas_bancarios") as [[| |z'|]|];
      try discriminate. injection Hz as ->. simpl. by rewrite Hh. }
  split.
  - intros Hsmall. apply Hval, Hpale.
    assert (z = lo) as -> by (specialize (Hsmall fl lo Hfl Hcl); lia).
    apply (rgba_at_first cmap _ _ _ c0 _ Hi Hc).
    cbn [of_int num_le]. apply Qle_bool_iff.
    rewrite index_entry_first. apply Qle_refl.
  - intros Hlarge (f' & z' & Hf' & Hz' & Hlt). apply Hval, Hdark.
    assert (z = hi) as -> by (specialize (Hlarge fh hi Hfh Hch); lia).
    assert (lo < hi).
    { destruct (scale_ends b f' z' Hf' Hz') as (lo' & hi' & Hmin' & _ & [? _] & _).
      rewrite Hmin in Hmin'. injection Hmin' as Hq. lia. }
    unfold rgba_floats_tuple, get_or_raise.
    rewrite Hi, Hc, py_get_first, py_get_minus_one. cbn [of_int num_le].
    replace (Qle_bool (inject_Z hi) (index_entry (inject_Z lo) (inject_Z hi) 0))
      with false.
    + replace (Qle_bool (index_entry (inject_Z lo) (inject_Z hi) 2)
                 (inject_Z hi)) with true; [reflexivity|].
      symmetry. apply Qle_bool_iff. rewrite index_entry_last. apply Qle_refl.
    + symmetry. apply not_true_is_false. intros Hle.
      apply Qle_bool_iff in Hle. rewrite index_entry_first in Hle.
      rewrite <- Zle_Qle in Hle. lia.
Qed.

(** ** The further properties at work on the sample world *)

Lemma counts_ignore_point_order_witness :
  column (aggregate Sample.box_contains Sample.bairros Sample.agencias)
    "sistemas_bancarios"
  = column (aggregate Sample.box_contains Sample.bairros
              More.agencias_trocadas) "sistemas_bancarios".
Proof.
  apply (counts_ignore_point_order Sample.box_contains Sample.bairros
           Sample.agencias More.agencias_trocadas).
  apply perm_swap.
Defined.

Lemma count_covers_markers_witness :
  exists c,
    column (aggregate Sample.box_contains Sample.bairros Sample.agencias)
      "sistemas_bancarios" !! 0%nat = Some (VInt c)
    /\ Z.of_nat (points_inside Sample.box_contains
                   (Some (Sample.box 0 0 10 10)) Sample.agencias) <= c.
Proof.
  apply (count_covers_markers Sample.box_contains Sample.bairros
           Sample.agencias 0%nat (Some (Sample.box 0 0 10 10))).
  reflexivity.
Defined.

Lemma status_decides_parsing_witness :
  exists rest,
    load_geojson_from_github Sample.get_404_sb Sample.read_ok SB_URL
    = (Done None,
       load_errors SB_URL
         {| kind := HTTPError; str := str_int 404 ++ rest |}).
Proof.
  apply (proj1 (status_decides_parsing Sample.get_404_sb Sample.read_ok SB_URL
                  {| status_code := 404; reason := "Not Found";
                     content := "" |} eq_refl)).
  cbn [status_code]. lia.
Defined.

Lemma both_failures_reported_witness :
  app Sample.box_contains Sample.no_transform Sample.get_down Sample.read_ok
    Posix Sample.untouched
  = (Stopped,
     (PREAMBLE
      ++ Error ("Erro ao carregar o arquivo: " ++ "Max retries exceeded")
      :: Error ("URL tentada: " ++ BAIRROS_URL)
      :: Error ("Erro ao carregar o arquivo: " ++ "Max retries exceeded")
      :: Error ("URL tentada: " ++ SB_URL) :: nil)%list).
Proof.
  apply (both_failures_reported Sample.box_contains Sample.no_transform
           Sample.get_down Sample.read_ok Posix Sample.untouched
           {| kind := ConnectionError; str := "Max retries exceeded" |}
           {| kind := ConnectionError; str := "Max retries exceeded" |});
    reflexivity.
Defined.

Lemma naive_frame_ends_cycle_witness :
  exists e,
    kind e = ValueError
    /\ app Sample.box_contains Sample.no_transform Sample.get_ok
         More.read_sem_crs Posix Sample.untouched
       = (Raised e, (PREAMBLE ++ Spinner PROCESSING :: nil)%list).
Proof.
  apply (naive_frame_ends_cycle Sample.box_contains Sample.no_transform
           Sample.get_ok More.read_sem_crs Posix Sample.untouched
           More.sem_crs Sample.agencias).
  - vm_compute. reflexivity.
  - vm_compute. reflexivity.
  - left. reflexivity.
Defined.

Lemma finished_cycle_page_witness :
  exists g es,
    app Sample.box_contains Sample.no_transform Sample.get_ok Sample.read_ok
      Posix Sample.untouched = (Done g, es)
    /\ es = (PREAMBLE ++ Spinner PROCESSING :: SIDEBAR
             ++ StFolium (m g) 1200 700 :: FOOTER (csv g))%list
    /\ existsb is_Error es = false.
Proof.
  destruct (app Sample.box_contains Sample.no_transform Sample.get_ok
              Sample.read_ok Posix Sample.untouched) as [[g| |e] es] eqn:E.
  - exists g, es. split; [reflexivity|].
    exact (finished_cycle_page _ _ _ _ _ _ g es E).
  - vm_compute in E. discriminate.
  - vm_compute in E. discriminate.
Defined.

Lemma export_reads_names_and_counts_witness :
  select_columns (aggregate Sample.box_contains Sample.bairros Sample.agencias)
    ("NOME" :: "sistemas_bancarios" :: nil)
  = inr {| header := "NOME" :: "sistemas_bancarios" :: nil;
           rows :=
             List.map
               (fun f =>
                  default VNone (properties f !! "NOME")
                  :: VInt (Z.of_nat
                             (Nat.max 1
                                (joined_count Sample.box_contains
                                   (geometry f) Sample.agencias)))
                  :: nil)
               (features Sample.bairros) |}.
Proof.
  apply (proj1 (export_reads_names_and_counts Sample.box_contains
                  Sample.bairros Sample.agencias)).
  apply list_elem_of_here.
Defined.

Lemma missing_name_column_never_exports_witness :
  (forall g es,
      app Sample.box_contains Sample.no_transform Sample.get_ok
        More.read_sem_nome Posix Sample.untouched <> (Done g, es))
  /\ existsb is_DownloadButton
       (snd (app Sample.box_contains Sample.no_transform Sample.get_ok
               More.read_sem_nome Posix Sample.untouched)) = false.
Proof.
  apply (missing_name_column_never_exports Sample.box_contains
           Sample.no_transform Sample.get_ok More.read_sem_nome Posix
           Sample.untouched More.sem_nome).
  - vm_compute. reflexivity.
  - cbn. apply not_elem_of_nil.
Defined.

Lemma map_layers_in_order_witness :
  exists mp locs es,
    build_map "CartoDB positron" true true Sample.iguais Sample.sem_agencias
    = (Done (mp, locs), es)
    /\ tiles mp = "CartoDB positron"
    /\ existsb is_MarkerCluster (children mp) = true
    /\ existsb is_HeatMap (children mp) = false.
Proof.
  destruct (build_map "CartoDB positron" true true Sample.iguais
              Sample.sem_agencias) as [[[mp locs]| |e] es] eqn:E.
  - exists mp, locs, es. split; [reflexivity|].
    destruct (map_layers_in_order _ _ _ _ _ _ _ _ E)
      as (Ht & _ & _ & Hc & Hh & _).
    split; [exact Ht|]. split; [exact Hc|].
    rewrite Hh. vm_compute in E. injection E as _ <- _. reflexivity.
  - vm_compute in E. discriminate.
  - vm_compute in E. discriminate.
Defined.

Lemma to_crs_keeps_rows_and_attributes_witness :
  exists df',
    to_crs More.scale_down More.projetado 4326 = inr df'
    /\ to_crs More.scale_down df' 4326 = inr df'
    /\ List.map is_marker (geometries df')
       = List.map is_marker (geometries More.projetado).
Proof.
  destruct (to_crs More.scale_down More.projetado 4326) as [e|df'] eqn:E.
  - vm_compute in E. discriminate.
  - exists df'. split; [reflexivity|].
    destruct (to_crs_keeps_rows_and_attributes _ _ _ _ E)
      as (Hi & _ & _ & _ & Hm & _).
    by split.
Defined.

(** The reprojected sample: the point moved, the CRS tag changed, the
    attribute and the two rows without coordinates stayed. *)
Example projetado_reprojected :
  to_crs More.scale_down More.projetado 4326
  = inr {| crs := Some (EPSG 4326); columns := "banco" :: nil;
           features :=
             {| properties := {[ "banco" := VStr "Caixa" ]};
                geometry := Some (Point (Some (100 / 100, 300 / 100)%Q)) |}
             :: Sample.ponto (Some (Point None))
             :: Sample.ponto None :: nil |}.
Proof. reflexivity. Qed.

Lemma extreme_counts_get_end_colours_witness :
  exists cmap,
    colormap More.desiguais = inr cmap
    /\ style_function cmap
         (Sample.contado "Batel" 1 (Sample.box 20 20 30 30)) = inr PALE.
Proof.
  destruct (colormap More.desiguais) as [e|cmap] eqn:E.
  - vm_compute in E. discriminate.
  - exists cmap. split; [reflexivity|].
    apply (proj1 (extreme_counts_get_end_colours More.desiguais cmap
                    (Sample.contado "Batel" 1 (Sample.box 20 20 30 30)) 1
                    E (list_elem_of_here _ _) eq_refl)).
    intros f' z' Hf' Hz'. cbn in Hf'.
    repeat (apply elem_of_cons in Hf' as [->|Hf'];
            [vm_compute in Hz'; injection Hz' as <-; lia|]).
    by apply elem_of_nil in Hf'.
Defined.

(** The two neighbourhoods of the sample get the two ends of the
    palette. *)
Example desiguais_styles :
  match colormap More.desiguais with
  | inr cmap => mapM (style_function cmap) (features More.desiguais)
  | inl e => inl e
  end = inr (PALE :: DARK :: nil).
Proof. reflexivity. Qed.
